(** * timesheet-me: the timesheet assembly of [src/index.mjs]

    A shallow embedding of the script's logic: the string operations it uses
    ([split], [join], [trim]), the ECMAScript [Date] arithmetic behind
    [new Date(y, m, d)], [getMonth], [getDay] and [toISOString], the
    [dailyLog] object that groups log lines per date, and
    [generateTimesheet] itself, whose external collaborators ([execSync],
    the chat completion API, the spreadsheet API, the console, the clock and
    the credentials file) are oracles and events of an explicit world.

    The local time zone is an oracle too: its offset from UTC may change
    with time (daylight saving, a change of rule).  Taken for granted: what
    the collaborators throw are [Error]s with a message. *)

From Stdlib Require Import ZArith NArith Lia.
From stdpp Require Import gmap list strings.

(** ** JavaScript strings

    A JavaScript string is a sequence of UTF-16 code units. *)

Abbreviation jsstring := (list N).

(** A literal of the source, all of whose characters are ASCII. *)
Fixpoint lit (s : string) : jsstring :=
  match s with
  | EmptyString => []
  | String a s' => Ascii.N_of_ascii a :: lit s'
  end.

Definition newline : jsstring := [10%N].

Section StringOps.
Context {A : Type} `{EqDecision A}.

(** [startsWith sep s]: [sep] occurs in [s] at index 0. *)
Fixpoint startsWith (sep s : list A) : bool :=
  match sep, s with
  | [], _ => true
  | _ :: _, [] => false
  | a :: sep', b :: s' => if decide (a = b) then startsWith sep' s' else false
  end.

(** [String.prototype.split] with a non-empty separator scans the string
    from the left; at an occurrence of the separator it closes the current
    piece and resumes the search behind the occurrence.  [skip] counts the
    code units of a matched occurrence that are still to be stepped over,
    [cur] is the piece being collected, in reverse. *)
Fixpoint splitFrom (sep : list A) (skip : nat) (cur s : list A) : list (list A) :=
  match s with
  | [] => [rev cur]
  | c :: s' =>
      match skip with
      | S k => splitFrom sep k cur s'
      | O =>
          if startsWith sep s
          then rev cur :: splitFrom sep (length sep - 1) [] s'
          else splitFrom sep 0 (c :: cur) s'
      end
  end.

(** [s.split(sep)]; with the empty separator the string falls apart into
    its code units. *)
Definition split (sep s : list A) : list (list A) :=
  match sep with
  | [] => map (fun c => [c]) s
  | _ :: _ => splitFrom sep 0 [] s
  end.

(** [parts.join(sep)]. *)
Fixpoint join (sep : list A) (parts : list (list A)) : list A :=
  match parts with
  | [] => []
  | [p] => p
  | p :: rest => p ++ sep ++ join sep rest
  end.

(** [s.indexOf(sep)]: the index of the first occurrence of [sep] in [s];
    [None] is JavaScript's -1. *)
Fixpoint indexOf (sep s : list A) : option nat :=
  if startsWith sep s then Some 0
  else match s with
       | [] => None
       | _ :: s' => S <$> indexOf sep s'
       end.
End StringOps.

(** WhiteSpace and LineTerminator code units, the ones [trim] strips. *)
Definition isWhiteSpace (c : N) : bool :=
  bool_decide (c ∈ [9; 10; 11; 12; 13; 32; 160; 5760;
                    8192; 8193; 8194; 8195; 8196; 8197; 8198; 8199; 8200;
                    8201; 8202; 8232; 8233; 8239; 8287; 12288; 65279]%N).

Fixpoint trimStart (s : jsstring) : jsstring :=
  match s with
  | [] => []
  | c :: s' => if isWhiteSpace c then trimStart s' else s
  end.

Definition trimEnd (s : jsstring) : jsstring := rev (trimStart (rev s)).

Definition trim (s : jsstring) : jsstring := trimEnd (trimStart s).

(** ** Decimal numerals *)

Definition digit (n : Z) : N := (48 + Z.to_N n)%N.

(** [n] written with exactly [width] decimal digits. *)
Fixpoint padDigits (width : nat) (n : Z) : jsstring :=
  match width with
  | O => []
  | S w => padDigits w (n / 10) ++ [digit (n mod 10)]
  end.

Fixpoint decimalDigits (fuel : nat) (n : Z) : jsstring :=
  match fuel with
  | O => []
  | S f =>
      if (n <? 10)%Z then [digit n]
      else decimalDigits f (n / 10) ++ [digit (n mod 10)]
  end.

(** [String(n)] for an integer [n]. *)
Definition decimal (n : Z) : jsstring :=
  if (n <? 0)%Z
  then lit "-" ++ decimalDigits (S (Z.to_nat (Z.log2 (- n)))) (- n)
  else decimalDigits (S (Z.to_nat (Z.log2 n))) n.

(** [s.padStart(targetLength, fill)]. *)
Definition padStart (targetLength : nat) (fill s : jsstring) : jsstring :=
  let fillLen := (targetLength - length s)%nat in
  take fillLen (concat (replicate fillLen fill)) ++ s.

(** ** ECMAScript time values (ECMA-262, "Date objects")

    A time value is a number of milliseconds since the epoch; a [Date]
    holds a time value or [NaN], here [None]. *)

Section TimeValues.
Local Open Scope Z_scope.

Definition msPerDay : Z := 86400000.
Definition msPerHour : Z := 3600000.
Definition msPerMinute : Z := 60000.
Definition msPerSecond : Z := 1000.

Definition Day (t : Z) : Z := t / msPerDay.
Definition TimeWithinDay (t : Z) : Z := t mod msPerDay.

Definition DaysInYear (y : Z) : Z :=
  if negb (y mod 4 =? 0) then 365
  else if negb (y mod 100 =? 0) then 366
  else if negb (y mod 400 =? 0) then 365
  else 366.

Definition DayFromYear (y : Z) : Z :=
  365 * (y - 1970) + (y - 1969) / 4 - (y - 1901) / 100 + (y - 1601) / 400.

Definition TimeFromYear (y : Z) : Z := msPerDay * DayFromYear y.

(** The year a day number falls in: the largest [y] with
    [DayFromYear y <= d].  The estimate from the mean length of a year is
    off by at most one, which the two comparisons repair
    (see [YearFromDay_spec] and [YearFromDay_unique]). *)
Definition YearFromDay (d : Z) : Z :=
  let g := 1970 + (400 * d) / 146097 in
  if d <? DayFromYear g then g - 1
  else if DayFromYear (g + 1) <=? d then g + 1
  else g.

Definition YearFromTime (t : Z) : Z := YearFromDay (Day t).

Definition InLeapYear (t : Z) : Z :=
  if DaysInYear (YearFromTime t) =? 366 then 1 else 0.

Definition DayWithinYear (t : Z) : Z := Day t - DayFromYear (YearFromTime t).

Definition MonthFromTime (t : Z) : Z :=
  let d := DayWithinYear t in
  let leap := InLeapYear t in
  if d <? 31 then 0
  else if d <? 59 + leap then 1
  else if d <? 90 + leap then 2
  else if d <? 120 + leap then 3
  else if d <? 151 + leap then 4
  else if d <? 181 + leap then 5
  else if d <? 212 + leap then 6
  else if d <? 243 + leap then 7
  else if d <? 273 + leap then 8
  else if d <? 304 + leap then 9
  else if d <? 334 + leap then 10
  else 11.

Definition DateFromTime (t : Z) : Z :=
  let d := DayWithinYear t in
  let leap := InLeapYear t in
  match MonthFromTime t with
  | 0 => d + 1
  | 1 => d - 30
  | 2 => d - 58 - leap
  | 3 => d - 89 - leap
  | 4 => d - 119 - leap
  | 5 => d - 150 - leap
  | 6 => d - 180 - leap
  | 7 => d - 211 - leap
  | 8 => d - 242 - leap
  | 9 => d - 272 - leap
  | 10 => d - 303 - leap
  | _ => d - 333 - leap
  end.

(** Sunday is 0, Saturday is 6; the epoch was a Thursday. *)
Definition WeekDay (t : Z) : Z := (Day t + 4) mod 7.

Definition HourFromTime (t : Z) : Z := (t / msPerHour) mod 24.
Definition MinFromTime (t : Z) : Z := (t / msPerMinute) mod 60.
Definition SecFromTime (t : Z) : Z := (t / msPerSecond) mod 60.
Definition msFromTime (t : Z) : Z := t mod msPerSecond.

Definition MakeTime (hour min sec ms : Z) : Z :=
  hour * msPerHour + min * msPerMinute + sec * msPerSecond + ms.

(** The day within its year on which month [mn] (0 to 11) begins. *)
Definition monthStart (leap mn : Z) : Z :=
  match mn with
  | 0 => 0
  | 1 => 31
  | 2 => 59 + leap
  | 3 => 90 + leap
  | 4 => 120 + leap
  | 5 => 151 + leap
  | 6 => 181 + leap
  | 7 => 212 + leap
  | 8 => 243 + leap
  | 9 => 273 + leap
  | 10 => 304 + leap
  | _ => 334 + leap
  end.

(** [MakeDay(year, month, date)]: the day number of the first of the month
    [month mod 12] of the year [year + floor(month / 12)], moved on by
    [date - 1] days (see [MakeDay_first_of_month]). *)
Definition MakeDay (year month date : Z) : Z :=
  let ym := year + month / 12 in
  let mn := month mod 12 in
  let leap := if DaysInYear ym =? 366 then 1 else 0 in
  DayFromYear ym + monthStart leap mn + date - 1.

Definition MakeDate (day time : Z) : Z := day * msPerDay + time.

Definition TimeClip (time : Z) : option Z :=
  if 8640000000000000 <? Z.abs time then None else Some time.

(** The local time zone adjustment [tza] is ECMA-262's LocalTZA(t, isUTC),
    in milliseconds east of UTC: [tza t true] is the offset in force at
    the time value [t]; [tza t false] is the offset with which the local
    time [t] is read (where a local time comes twice the earlier reading
    counts, where it is skipped the offset before the change does). *)
Definition LocalTime (tza : Z -> bool -> Z) (t : Z) : Z := t + tza t true.
Definition UTC (tza : Z -> bool -> Z) (t : Z) : Z := t - tza t false.

(** [new Date(year, month, date)]: the fields are read in local time; a
    year from 0 to 99 means 1900 + year. *)
Definition newDate (tza : Z -> bool -> Z) (year month date : Z) : option Z :=
  let yr := if (0 <=? year) && (year <=? 99) then 1900 + year else year in
  TimeClip (UTC tza (MakeDate (MakeDay yr month date) (MakeTime 0 0 0 0))).

Definition getFullYear (tza : Z -> bool -> Z) (d : option Z) : option Z :=
  YearFromTime ∘ LocalTime tza <$> d.
Definition getMonth (tza : Z -> bool -> Z) (d : option Z) : option Z :=
  MonthFromTime ∘ LocalTime tza <$> d.
Definition getDay (tza : Z -> bool -> Z) (d : option Z) : option Z :=
  WeekDay ∘ LocalTime tza <$> d.

(** The year of [toISOString]: four digits from 0 to 9999, otherwise a sign
    and six digits. *)
Definition isoYear (y : Z) : jsstring :=
  if (0 <=? y) && (y <=? 9999) then padDigits 4 y
  else (if y <? 0 then lit "-" else lit "+") ++ padDigits 6 (Z.abs y).

(** The ISO format of a time value, in UTC whatever the local time zone. *)
Definition isoString (t : Z) : jsstring :=
  isoYear (YearFromTime t) ++ lit "-" ++ padDigits 2 (MonthFromTime t + 1)
  ++ lit "-" ++ padDigits 2 (DateFromTime t)
  ++ lit "T" ++ padDigits 2 (HourFromTime t)
  ++ lit ":" ++ padDigits 2 (MinFromTime t)
  ++ lit ":" ++ padDigits 2 (SecFromTime t)
  ++ lit "." ++ padDigits 3 (msFromTime t) ++ lit "Z".

(** [d.toISOString()]; [None] is the RangeError of an invalid date. *)
Definition toISOString (d : option Z) : option jsstring := isoString <$> d.

End TimeValues.

(** ** The world of the script

    What the script does to its environment is recorded as a trace of
    events; what the environment answers is given by the oracles of [Env]. *)

Inductive Cell :=
| CellString (s : jsstring)
| CellNumber (n : Z).

Inductive Event :=
| ConsoleError (text : jsstring)
| ConsoleLog (text : jsstring)
| ExecSync (command : jsstring)
| ChatCompletionsCreate (prompt : jsstring)
| SheetsValuesUpdate (sheetId : jsstring) (values : list (list Cell)).

(** What the [try] block of [formatCommitMessages] comes to: the text of
    [response.choices[0].message.content], or an error with its message. *)
Inductive ChatResult :=
| ChatContent (content : jsstring)
| ChatError (message : jsstring).

(** The credentials file: absent, present but not readable as JSON, or
    parsed. *)
Inductive CredentialsFile :=
| NoFile
| BadFile
| Credentials (json : jsstring).

Record Env := {
  (** local time zone adjustment, milliseconds east of UTC, at a time
      value ([true]) or at a local time ([false]) *)
  localTZA : Z -> bool -> Z;
  (** the time value of the [n]-th [new Date()] *)
  clock : nat -> Z;
  CREDENTIALS_PATH : jsstring;
  credentialsFile : CredentialsFile;
  (** [execSync(command)]: the child's output, or [None] when it throws *)
  execSync : jsstring -> option jsstring;
  (** the [n]-th chat completion, for a client made with [apiKey] *)
  chatCompletion : nat -> jsstring -> jsstring -> ChatResult;
  (** [spreadsheets.values.update]: [Some message] when it rejects *)
  sheetsUpdate : jsstring -> jsstring -> list (list Cell) -> option jsstring;
}.

Inductive Thrown := TypeError | SyntaxError | RangeError.

(** How a computation ends: with a value, by [process.exit(code)], or by
    an exception nothing catches. *)
Inductive Outcome (A : Type) :=
| Ret (a : A)
| Exit (code : Z)
| Throw (e : Thrown).
Arguments Ret {A} a.
Arguments Exit {A} code.
Arguments Throw {A} e.

#[global] Instance Outcome_ret : MRet Outcome := fun A a => Ret a.
#[global] Instance Outcome_bind : MBind Outcome := fun A B f m =>
  match m with
  | Ret a => f a
  | Exit code => Exit code
  | Throw e => Throw e
  end.

(** Computations over the trace of events so far. *)
Definition M (A : Type) : Type := list Event -> Outcome A * list Event.

#[global] Instance M_ret : MRet M := fun A a w => (Ret a, w).
#[global] Instance M_bind : MBind M := fun A B f m w =>
  match m w with
  | (Ret a, w') => f a w'
  | (Exit code, w') => (Exit code, w')
  | (Throw e, w') => (Throw e, w')
  end.

Definition emit (e : Event) : M unit := fun w => (Ret tt, w ++ [e]).
Definition exit {A} (code : Z) : M A := fun w => (Exit code, w).
Definition liftOutcome {A} (o : Outcome A) : M A := fun w => (o, w).

(** [console.error(a, b)] writes its arguments separated by a space. *)
Definition consoleError (args : list jsstring) : M unit :=
  emit (ConsoleError (join (lit " ") args)).
Definition consoleLog (args : list jsstring) : M unit :=
  emit (ConsoleLog (join (lit " ") args)).

Definition isChatCall (e : Event) : bool :=
  match e with ChatCompletionsCreate _ => true | _ => false end.

(** The number of chat completions requested so far. *)
Definition chatCalls (w : list Event) : nat := length (filter isChatCall w).

(** ** The [dailyLog] object

    [dailyLog] starts as [{}]: its own properties are the groups, and a
    lookup that finds no own property goes on to [Object.prototype]. *)

Definition objectPrototypeKeys : list jsstring :=
  lit <$> ["constructor"; "__defineGetter__"; "__defineSetter__";
           "hasOwnProperty"; "__lookupGetter__"; "__lookupSetter__";
           "isPrototypeOf"; "propertyIsEnumerable"; "toString"; "valueOf";
           "__proto__"; "toLocaleString"].

Inductive PropertyValue :=
| Undefined
| OwnArray (a : list jsstring)
| Inherited.

(** [dailyLog[key]] *)
Definition getProperty (dailyLog : gmap jsstring (list jsstring)) (key : jsstring)
  : PropertyValue :=
  match dailyLog !! key with
  | Some a => OwnArray a
  | None => if bool_decide (key ∈ objectPrototypeKeys) then Inherited else Undefined
  end.

(** [value || []], for the values a lookup in [dailyLog] can give; a member
    of [Object.prototype] is neither an array nor falsy. *)
Definition orEmpty (value : PropertyValue) : option (list jsstring) :=
  match value with
  | Undefined => Some []
  | OwnArray a => Some a
  | Inherited => None
  end.

Definition separator : jsstring := lit " - ".

(** [const [date, ...messageParts] = log.split(" - ")] and
    [messageParts.join(" - ").trim()]; [split] with a non-empty separator
    returns at least one piece ([split_cons]). *)
Definition lineDate (log : jsstring) : jsstring := hd [] (split separator log).
Definition lineMessage (log : jsstring) : jsstring :=
  trim (join separator (tl (split separator log))).

(** The callback of [logs.forEach] (lines 111 to 117).  A value inherited
    from [Object.prototype] is truthy and has no [push]: the call throws a
    TypeError. *)
Definition processLog (dailyLog : gmap jsstring (list jsstring)) (log : jsstring)
  : Outcome (gmap jsstring (list jsstring)) :=
  match log with
  | [] => Ret dailyLog
  | _ :: _ =>
      let date := lineDate log in
      let message := lineMessage log in
      match getProperty dailyLog date with
      | Undefined => Ret (<[date := [message]]> dailyLog)
      | OwnArray a => Ret (<[date := a ++ [message]]> dailyLog)
      | Inherited => Throw TypeError
      end
  end.

Fixpoint forEachLog (logs : list jsstring) (dailyLog : gmap jsstring (list jsstring))
  : Outcome (gmap jsstring (list jsstring)) :=
  match logs with
  | [] => Ret dailyLog
  | log :: rest => dailyLog' ← processLog dailyLog log; forEachLog rest dailyLog'
  end.

(** ** The script *)

(** A row of [timesheetData]: the object with the keys [Date],
    ["Worked Hours"], [Logs] and [Weekend]. *)
Record DayRecord := {
  Date : jsstring;
  WorkedHours : Z;
  Logs : jsstring;
  Weekend : jsstring;
}.

Definition DEFAULT_HOURS : Z := 8.

Section Script.
Variable env : Env.

Definition isWeekend (date : option Z) : bool :=
  bool_decide (getDay (localTZA env) date = Some 0%Z)
  || bool_decide (getDay (localTZA env) date = Some 6%Z).

Definition chatPrompt (messages : list jsstring) : jsstring :=
  lit "You are an assistant that formats raw git commit messages into "
  ++ lit "polished sentences for a timesheet. Format the following messages:"
  ++ newline ++ newline ++ join newline messages ++ newline ++ newline
  ++ lit "Format them into a concise list of well-structured sentences.".

Definition chatCompletionsCreate (openai prompt : jsstring) : M ChatResult :=
  fun w => (Ret (chatCompletion env (chatCalls w) openai prompt),
            w ++ [ChatCompletionsCreate prompt]).

(** Lines 27 to 43. *)
Definition formatCommitMessages (messages : list jsstring) (openai : jsstring)
  : M jsstring :=
  response ← chatCompletionsCreate openai (chatPrompt messages);
  match response with
  | ChatContent content => mret (trim content)
  | ChatError message =>
      consoleError [lit "Error calling OpenAI API:"; message];;
      mret (join newline messages)
  end.

Definition sheetRow (row : DayRecord) : list Cell :=
  [CellString (Date row); CellNumber (WorkedHours row);
   CellString (Logs row); CellString (Weekend row)].

Definition sheetValues (data : list DayRecord) : list (list Cell) :=
  (CellString ∘ lit <$> ["Date"; "Worked Hours"; "Logs"; "Weekend"])
  :: (sheetRow <$> data).

(** Lines 46 to 68. *)
Definition updateGoogleSheet (sheetId : jsstring) (data : list DayRecord)
    (auth : jsstring) : M unit :=
  let values := sheetValues data in
  emit (SheetsValuesUpdate sheetId values);;
  match sheetsUpdate env auth sheetId values with
  | None => consoleLog [lit "Google Sheet updated successfully!"]
  | Some message => consoleError [lit "Error updating Google Sheet:"; message]
  end.

Section Builder.
Variable openai : jsstring.
Variable dailyLog : gmap jsstring (list jsstring).
Variables year month : Z.

(** One round of the loop behind the [break] (lines 127 to 143).  The
    TypeError stands for [dailyLog[dateStr]] finding a member of
    [Object.prototype]; no [dateStr] reaches it ([dateStr_not_inherited]). *)
Definition dayBody (currentDate : option Z) (acc : list DayRecord * Z)
  : M (list DayRecord * Z) :=
  let '(timesheetData, totalHours) := acc in
  match toISOString currentDate with
  | None => liftOutcome (Throw RangeError)
  | Some iso =>
      let dateStr := hd [] (split (lit "T") iso) in
      let isHoliday := isWeekend currentDate in
      match orEmpty (getProperty dailyLog dateStr) with
      | None => liftOutcome (Throw TypeError)
      | Some rawMessages =>
          formattedMessages ←
            (if bool_decide (length rawMessages ≠ 0%nat)
             then formatCommitMessages rawMessages openai
             else mret (lit "No logs"));
          let hours :=
            if bool_decide (0 < length rawMessages)%nat && negb isHoliday
            then DEFAULT_HOURS else 0%Z in
          mret (timesheetData ++
                  [{| Date := dateStr; WorkedHours := hours;
                      Logs := formattedMessages;
                      Weekend := if isHoliday then lit "Yes" else lit "No" |}],
                (totalHours + hours)%Z)
      end
  end.

(** The loop of lines 123 to 144 over the days still to visit. *)
Fixpoint forDays (days : list Z) (acc : list DayRecord * Z)
  : M (list DayRecord * Z) :=
  match days with
  | [] => mret acc
  | i :: rest =>
      let currentDate := newDate (localTZA env) year (month - 1) i in
      if bool_decide (Z.succ <$> getMonth (localTZA env) currentDate = Some month)
      then acc' ← dayBody currentDate acc; forDays rest acc'
      else mret acc
  end.

(** Lines 120 to 144: [timesheetData] and [totalHours] after the loop. *)
Definition buildTimesheet : M (list DayRecord * Z) :=
  forDays (seqZ 1 31) ([], 0%Z).

End Builder.

Definition currentYear : Z :=
  YearFromTime (LocalTime (localTZA env) (clock env 0)).
Definition currentMonth : Z :=
  (MonthFromTime (LocalTime (localTZA env) (clock env 1)) + 1)%Z.
Definition firstDay : jsstring :=
  decimal currentYear ++ lit "-"
  ++ padStart 2 (lit "0") (decimal currentMonth) ++ lit "-01".
Definition gitLogCommand (author : jsstring) : jsstring :=
  lit "git log --since=" ++ [34%N] ++ firstDay ++ [34%N]
  ++ lit " --author=" ++ [34%N] ++ author ++ [34%N]
  ++ lit " --pretty=format:" ++ [34%N] ++ lit "%ad - %s" ++ [34%N]
  ++ lit " --date=short".

(** Lines 71 to 148; the two [new Date()] of lines 95 and 96 read the
    clock one after the other. *)
Definition generateTimesheet (apiKey author sheetId : jsstring) : M unit :=
  match apiKey with
  | [] =>
      consoleError [lit "OpenAI API Key is required. Use the --apikey option."];;
      exit 1
  | _ :: _ =>
  match sheetId with
  | [] =>
      consoleError [lit "Google Sheet ID is required. Use the --sheetid option."];;
      exit 1
  | _ :: _ =>
  match credentialsFile env with
  | NoFile =>
      consoleError [lit "Google credentials JSON file not found at: "
                    ++ CREDENTIALS_PATH env];;
      exit 1
  | BadFile => liftOutcome (Throw SyntaxError)
  | Credentials auth =>
      (* [auth] and [openai] are the clients made from the credentials
         and from the key *)
      let openai := apiKey in
      emit (ExecSync (gitLogCommand author));;
      match execSync env (gitLogCommand author) with
      | None =>
          consoleError [lit "Error fetching git logs. Are you in a git repository?"];;
          exit 1
      | Some output =>
          let logs := split newline output in
          dailyLog ← liftOutcome (forEachLog logs ∅);
          '(timesheetData, totalHours) ←
            buildTimesheet openai dailyLog currentYear currentMonth;
          updateGoogleSheet sheetId timesheetData auth
      end
  end
  end
  end.

(** The status the process ends with: 0 when [generateTimesheet] settles,
    the code of [process.exit], 1 for an exception nothing handles. *)
Definition exitStatus (run : Outcome unit * list Event) : Z :=
  match run.1 with
  | Ret _ => 0
  | Exit code => code
  | Throw _ => 1
  end.

End Script.

(** ** Notions the statements below use *)

(** The messages of the lines dated [date], in the order of the input:
    the per-date sequences of a log text, flattened again. *)
Definition groupedMessages (date : jsstring) (logs : list jsstring) : list jsstring :=
  lineMessage <$> filter (fun log => log <> [] /\ lineDate log = date) logs.

(** The raw messages a lookup of [date] in the groups comes to. *)
Definition rawMessages (dailyLog : gmap jsstring (list jsstring)) (date : jsstring)
  : list jsstring :=
  default [] (dailyLog !! date).

(** A line the extractor can take in: blank, or with a date part that is
    not the name of a member of [Object.prototype]. *)
Definition plainLine (log : jsstring) : Prop :=
  log = [] \/ lineDate log ∉ objectPrototypeKeys.

#[global] Instance plainLine_dec log : Decision (plainLine log).
Proof. unfold plainLine. apply _. Defined.




(** The sum of the hours of a sheet. *)
Definition sumHours (data : list DayRecord) : Z :=
  foldr (fun row acc => (WorkedHours row + acc)%Z) 0%Z data.

(** The number of rows whose date has messages: the chat completions the
    rows have asked for. *)
Definition busyDays (dailyLog : gmap jsstring (list jsstring)) (data : list DayRecord)
  : nat :=
  length (filter (fun row => rawMessages dailyLog (Date row) <> []) data).

(** *** The loop in closed form

    What one round and the whole loop come to, as functions of the number
    [k] of chat completions requested before; [buildTimesheet_run] shows
    that the loop computes them. *)

Section ClosedForm.
Variable env : Env.
Variable openai : jsstring.
Variable dailyLog : gmap jsstring (list jsstring).
Variables year month : Z.

(** [dateStr] for the time value of [currentDate]. *)
Definition dateStrOf (t : Z) : jsstring := hd [] (split (lit "T") (isoString t)).

(** What [formatCommitMessages] returns and does as the [k]-th request. *)
Definition formatted (k : nat) (messages : list jsstring) : jsstring :=
  match chatCompletion env k openai (chatPrompt messages) with
  | ChatContent content => trim content
  | ChatError _ => join newline messages
  end.

Definition formatEvents (k : nat) (messages : list jsstring) : list Event :=
  ChatCompletionsCreate (chatPrompt messages)
  :: match chatCompletion env k openai (chatPrompt messages) with
     | ChatContent _ => []
     | ChatError message =>
         [ConsoleError (join (lit " ") [lit "Error calling OpenAI API:"; message])]
     end.

Definition dayRecordOf (k : nat) (t : Z) : DayRecord :=
  let raw := rawMessages dailyLog (dateStrOf t) in
  let isHoliday := isWeekend env (Some t) in
  {| Date := dateStrOf t;
     WorkedHours :=
       if bool_decide (raw <> []) && negb isHoliday then DEFAULT_HOURS else 0%Z;
     Logs := if bool_decide (raw = []) then lit "No logs" else formatted k raw;
     Weekend := if isHoliday then lit "Yes" else lit "No" |}.

Definition dayCalls (t : Z) : nat :=
  if bool_decide (rawMessages dailyLog (dateStrOf t) = []) then 0 else 1.

Definition dayEventsOf (k : nat) (t : Z) : list Event :=
  let raw := rawMessages dailyLog (dateStrOf t) in
  if bool_decide (raw = []) then [] else formatEvents k raw.

Fixpoint dayRecords (k : nat) (ts : list Z) : list DayRecord :=
  match ts with
  | [] => []
  | t :: ts' => dayRecordOf k t :: dayRecords (k + dayCalls t) ts'
  end.

Fixpoint dayEvents (k : nat) (ts : list Z) : list Event :=
  match ts with
  | [] => []
  | t :: ts' => dayEventsOf k t ++ dayEvents (k + dayCalls t) ts'
  end.

(** The time values of the days the loop goes through before it breaks
    off or runs out of days. *)
Fixpoint visited (days : list Z) : list Z :=
  match days with
  | [] => []
  | i :: rest =>
      match newDate (localTZA env) year (month - 1) i with
      | Some t =>
          if bool_decide ((MonthFromTime (LocalTime (localTZA env) t) + 1)%Z = month)
          then t :: visited rest
          else []
      | None => []
      end
  end.

(** The local time that starts day [d] of the month, and the time value
    [new Date(year, month - 1, d)] makes of it. *)
Definition localMidnight (d : Z) : Z := MakeDate (MakeDay year (month - 1) d) 0.

Definition midnight (d : Z) : Z := UTC (localTZA env) (localMidnight d).

End ClosedForm.

(** The calendar of the specification: the number of days of a month
    (1 to 12), leap years counted, and the ISO date of a day. *)
Definition isLeapYear (year : Z) : bool :=
  ((year mod 4 =? 0) && (negb (year mod 100 =? 0) || (year mod 400 =? 0)))%Z.

Definition numberOfDaysIn (year month : Z) : Z :=
  match month with
  | 1 | 3 | 5 | 7 | 8 | 10 | 12 => 31
  | 4 | 6 | 9 | 11 => 30
  | 2 => if isLeapYear year then 29 else 28
  | _ => 0
  end%Z.

(** The years whose every day is a valid time value and which
    [new Date(year, ...)] takes as they are. *)
Definition fullYear (year : Z) : Prop := (100 <= year <= 275759)%Z.

Definition isoDate (year month day : Z) : jsstring :=
  isoYear year ++ lit "-" ++ padDigits 2 month ++ lit "-" ++ padDigits 2 day.

(** The offset from UTC with which day [d] of the month begins: negative
    or zero on and west of Greenwich, positive east of it. *)
Definition offsetOfDay (env : Env) (year month d : Z) : Z :=
  localTZA env (localMidnight year month d) false.

(** What the statements on a month ask of the time zone: for each day the
    loop makes a Date of, the offset at its local midnight is within a
    day, and the Date, read back in local time, is a time of that same
    day (midnight itself, or somewhat later where the zone skips
    midnight). *)
Definition zoneKeepsDays (env : Env) (year month : Z) : Prop :=
  forall d, (1 <= d <= 31)%Z ->
    (- msPerDay <= offsetOfDay env year month d <= msPerDay)%Z /\
    (0 <= LocalTime (localTZA env) (midnight env year month d)
          - localMidnight year month d < msPerDay)%Z.

(** ** Scenarios *)

(** The log text of scenario A. *)
Definition scenarioA : jsstring :=
  lit "2024-06-03 - fix bug" ++ newline ++ lit "2024-06-03 - add test"
  ++ newline ++ lit "2024-06-04 - refactor".

(** A run in June 2024 (the clock stands at 3 June 2024, 07:33:20 UTC) with
    credentials in place, where the log source answers [output], every
    chat completion comes to [chat] and the spreadsheet answers [write]. *)
Definition scenarioEnv (tza : Z) (output : option jsstring) (chat : ChatResult)
    (write : option jsstring) : Env :=
  {| localTZA := fun _ _ => tza;
     clock := fun _ => 1717400000000%Z;
     CREDENTIALS_PATH := lit "/opt/timesheet-me/credentials.json";
     credentialsFile := Credentials (lit "{}");
     execSync := fun _ => output;
     chatCompletion := fun _ _ _ => chat;
     sheetsUpdate := fun _ _ _ => write |}.

(** Europe/London around the end of summer time 2024: one hour east of
    UTC until 27 October 2024, 01:00 UTC, when the clocks go back from
    02:00 to 01:00, and on UTC from then on. *)
Definition londonTZA (t : Z) (isUTC : bool) : Z :=
  if isUTC
  then (if t <? 1729990800000 then msPerHour else 0)%Z
  else (if t <? 1729994400000 then msPerHour else 0)%Z.

(** A run in London on 15 October 2024, 10:00 UTC. *)
Definition londonEnv (output : option jsstring) (chat : ChatResult)
    (write : option jsstring) : Env :=
  {| localTZA := londonTZA;
     clock := fun _ => 1728986400000%Z;
     CREDENTIALS_PATH := lit "/opt/timesheet-me/credentials.json";
     credentialsFile := Credentials (lit "{}");
     execSync := fun _ => output;
     chatCompletion := fun _ _ _ => chat;
     sheetsUpdate := fun _ _ _ => write |}.

(** Commits of Friday 7, Sunday 9 and Saturday 29 June 2024, most recent
    first. *)
Definition scenarioEast : jsstring :=
  lit "2024-06-29 - saturday fix" ++ newline ++ lit "2024-06-09 - sunday fix"
  ++ newline ++ lit "2024-06-07 - friday fix".

(** ** Notions of the further properties *)

(** The prompts of the chat completions a trace asks for, in order. *)
Definition chatPrompts (w : list Event) : list jsstring :=
  omap (fun e => match e with ChatCompletionsCreate prompt => Some prompt | _ => None end) w.

Definition isDiagnostic (e : Event) : bool :=
  match e with ConsoleError _ => true | _ => false end.

(** What one call of [formatCommitMessages] leaves in the trace: the chat
    request, followed by one diagnostic if it failed. *)
Definition isRequestBlock (block : list Event) : Prop :=
  exists prompt,
    block = [ChatCompletionsCreate prompt] \/
    exists text, block = [ChatCompletionsCreate prompt; ConsoleError text].

(** What [updateGoogleSheet] writes to the console once the update has
    answered. *)
Definition updateReport (answer : option jsstring) : Event :=
  match answer with
  | None => ConsoleLog (lit "Google Sheet updated successfully!")
  | Some message => ConsoleError (lit "Error updating Google Sheet: " ++ message)
  end.

(** The number of messages the groups hold. *)
Definition messageCount (dailyLog : gmap jsstring (list jsstring)) : nat :=
  map_fold (fun _ group n => length group + n) 0 dailyLog.

(** * Facts *)

(** Closed goals that evaluation settles. *)
Ltac by_evaluation :=
  vm_compute; repeat split; solve [reflexivity | discriminate].

(** ** split and join *)

Section StringFacts.
Context {A : Type} `{EqDecision A}.
Implicit Types sep s q cur : list A.

Lemma startsWith_spec sep s : startsWith sep s = true <-> exists q, s = sep ++ q.
Proof.
  revert s. induction sep as [|a sep IH]; intros s; simpl.
  - split; [eauto | done].
  - destruct s as [|b s].
    + split; [done |]. intros [q Hq]. discriminate.
    + case_decide as Hab.
      * subst b. rewrite IH. split; intros [q Hq]; exists q.
        -- by rewrite Hq.
        -- by injection Hq.
      * split; [done |]. intros [q Hq]. injection Hq as -> _. done.
Qed.

Lemma splitFrom_skip sep x cur s :
  splitFrom sep (length x) cur (x ++ s) = splitFrom sep 0 cur s.
Proof. induction x as [|c x IH]; simpl; [done | apply IH]. Qed.

Lemma splitFrom_cons sep k cur s : exists h t, splitFrom sep k cur s = h :: t.
Proof.
  revert k cur. induction s as [|c s IH]; intros k cur; simpl; [eauto |].
  destruct k; [| apply IH]. destruct (startsWith sep (c :: s)); [eauto | apply IH].
Qed.

Lemma split_cons sep s : sep <> [] -> exists h t, split sep s = h :: t.
Proof. destruct sep; [done |]. intros _. apply splitFrom_cons. Qed.

(** [indexOf] finds an occurrence, and there is none before it. *)
Lemma indexOf_Some sep s n :
  indexOf sep s = Some n ->
  s = take n s ++ sep ++ drop (n + length sep) s /\
  forall m, m < n -> startsWith sep (drop m s) = false.
Proof.
  revert n. induction s as [|c s IH]; intros n; cbn [indexOf].
  - destruct (startsWith sep []) eqn:Hstart; [| done]. intros [= <-].
    apply startsWith_spec in Hstart as [q Hq]. split; [| lia].
    destruct sep; [done | discriminate].
  - destruct (startsWith sep (c :: s)) eqn:Hstart.
    + intros [= <-]. split; [| lia].
      apply startsWith_spec in Hstart as [q Hq]. rewrite Hq at 1.
      cbn [take Nat.add app]. f_equal. by rewrite Hq, drop_app_length.
    + destruct (indexOf sep s) as [n' |] eqn:Hindex; [| done].
      intros [= <-]. destruct (IH n' eq_refl) as [Hs Hbefore]. split.
      * cbn [take Nat.add drop app]. by rewrite <- Hs.
      * intros [|m] Hm; [done |]. cbn [drop]. apply Hbefore. lia.
Qed.

Lemma indexOf_None sep s n : indexOf sep s = None -> startsWith sep (drop n s) = false.
Proof.
  revert n. induction s as [|c s IH]; intros n; cbn [indexOf].
  - rewrite drop_nil. by destruct (startsWith sep []).
  - destruct (startsWith sep (c :: s)) eqn:Hstart; [done |].
    destruct (indexOf sep s) eqn:Hindex; [done |]. intros _.
    destruct n as [|n]; [done |]. by apply IH.
Qed.

(** At the first occurrence of the separator the piece collected so far is
    closed, and the search goes on behind the occurrence. *)
Lemma splitFrom_indexOf_Some sep s cur n :
  sep <> [] -> indexOf sep s = Some n ->
  splitFrom sep 0 cur s
  = (rev cur ++ take n s) :: splitFrom sep 0 [] (drop (n + length sep) s).
Proof.
  intros Hsep. revert cur n.
  induction s as [|c s IH]; intros cur n; cbn [indexOf splitFrom].
  - destruct sep; [done |]. done.
  - destruct (startsWith sep (c :: s)) eqn:Hstart.
    + intros [= <-]. cbn [take Nat.add]. rewrite app_nil_r. f_equal.
      apply startsWith_spec in Hstart as [q Hq]. rewrite Hq, drop_app_length.
      destruct sep as [|a sep]; [done |]. injection Hq as _ ->.
      cbn [length]. rewrite Nat.sub_succ, Nat.sub_0_r. apply splitFrom_skip.
    + destruct (indexOf sep s) as [n' |] eqn:Hindex; [| done].
      intros [= <-]. rewrite (IH _ n') by done.
      cbn [take Nat.add drop rev]. by rewrite <- app_assoc.
Qed.

Lemma splitFrom_indexOf_None sep s cur :
  indexOf sep s = None -> splitFrom sep 0 cur s = [rev cur ++ s].
Proof.
  revert cur. induction s as [|c s IH]; intros cur; cbn [indexOf splitFrom].
  - by rewrite app_nil_r.
  - destruct (startsWith sep (c :: s)) eqn:Hstart; [done |].
    destruct (indexOf sep s) eqn:Hindex; [done |]. intros _.
    rewrite IH by done. cbn [rev]. by rewrite <- app_assoc.
Qed.

Lemma split_indexOf_Some sep s n :
  sep <> [] -> indexOf sep s = Some n ->
  split sep s = take n s :: split sep (drop (n + length sep) s).
Proof.
  intros Hsep Hindex. destruct sep as [|a sep]; [done |].
  unfold split. by rewrite (splitFrom_indexOf_Some _ _ _ n).
Qed.

Lemma split_indexOf_None sep s :
  sep <> [] -> indexOf sep s = None -> split sep s = [s].
Proof.
  intros Hsep Hindex. destruct sep as [|a sep]; [done |].
  unfold split. by rewrite splitFrom_indexOf_None.
Qed.

Lemma join_head sep h l :
  l <> [] -> join sep (h :: l) = h ++ sep ++ join sep l.
Proof. by destruct l. Qed.

Lemma splitFrom_nonempty sep k cur s : splitFrom sep k cur s <> [].
Proof. by destruct (splitFrom_cons sep k cur s) as (h & t & ->). Qed.

Lemma join_splitFrom sep s k cur :
  sep <> [] -> k <= length s ->
  join sep (splitFrom sep k cur s) = rev cur ++ drop k s.
Proof.
  intros Hsep. revert k cur. induction s as [|c s IH]; intros k cur Hk.
  - destruct k; simpl in *; [| lia]. by rewrite app_nil_r.
  - destruct k as [|k]; cbn [splitFrom drop].
    2: { apply IH. simpl in Hk. lia. }
    destruct (startsWith sep (c :: s)) eqn:Hstart.
    + apply startsWith_spec in Hstart as [q Hq].
      rewrite join_head by apply splitFrom_nonempty.
      destruct sep as [|a sep]; [done |].
      injection Hq as -> ->.
      rewrite IH by (rewrite length_app; simpl; lia).
      simpl. rewrite Nat.sub_0_r. by rewrite drop_app_length.
    + rewrite IH by lia. simpl. by rewrite <- app_assoc.
Qed.

(** The pieces joined by the separator give the string back. *)
Lemma join_split sep s : sep <> [] -> join sep (split sep s) = s.
Proof.
  intros Hsep. destruct sep as [|a sep]; [done |]. unfold split.
  by rewrite join_splitFrom by (done || lia).
Qed.

End StringFacts.

(** [split] as JavaScript has it: an occurrence at the end leaves an empty
    last piece, occurrences do not overlap, the empty string gives one
    empty piece. *)
Example split_examples :
  split (lit " - ") (lit "2024-06-05 - refactor - cleanup pass")
  = [lit "2024-06-05"; lit "refactor"; lit "cleanup pass"] /\
  split (lit " - ") (lit "2024-06-05 - ") = [lit "2024-06-05"; []] /\
  split (lit " - ") (lit "x - - y") = [lit "x"; lit "- y"] /\
  split (lit " - ") (lit "no separator") = [lit "no separator"] /\
  split (lit " - ") [] = [[]] /\
  split newline (lit "a" ++ newline ++ newline ++ lit "b") = [lit "a"; []; lit "b"].
Proof. by_evaluation. Qed.

Example trim_examples :
  trim (lit "  fix  bug ") = lit "fix  bug" /\
  trim ([9; 160; 8232]%N ++ lit "x" ++ [13; 10; 65279]%N) = lit "x" /\
  trim (lit "   ") = [].
Proof. by_evaluation. Qed.

(** ** The groups of [dailyLog] *)

Section DailyLogFacts.
Implicit Types dailyLog : gmap jsstring (list jsstring).
Implicit Types log date rest key : jsstring.

Lemma separator_nonempty : separator <> [].
Proof. done. Qed.

Lemma lineDate_indexOf_Some log n :
  indexOf separator log = Some n -> lineDate log = take n log.
Proof.
  intros Hindex. unfold lineDate. by rewrite (split_indexOf_Some _ _ n).
Qed.

(** Behind the first separator the line is put together again as it was,
    and trimmed. *)
Lemma lineMessage_indexOf_Some log n :
  indexOf separator log = Some n ->
  lineMessage log = trim (drop (n + length separator) log).
Proof.
  intros Hindex. unfold lineMessage. rewrite (split_indexOf_Some _ _ n) by done.
  cbn [tl]. by rewrite join_split.
Qed.

Lemma lineDate_indexOf_None log : indexOf separator log = None -> lineDate log = log.
Proof. intros Hindex. unfold lineDate. by rewrite split_indexOf_None. Qed.


Lemma getProperty_plain dailyLog key :
  key ∉ objectPrototypeKeys ->
  getProperty dailyLog key = from_option OwnArray Undefined (dailyLog !! key).
Proof.
  intros Hkey. unfold getProperty. destruct (dailyLog !! key); [done |].
  by rewrite bool_decide_eq_false_2.
Qed.


Lemma orEmpty_getProperty_plain dailyLog key :
  key ∉ objectPrototypeKeys ->
  orEmpty (getProperty dailyLog key) = Some (rawMessages dailyLog key).
Proof.
  intros Hkey. rewrite getProperty_plain by done. unfold rawMessages.
  by destruct (dailyLog !! key).
Qed.

(** A line that is not blank and whose date part is no member of
    [Object.prototype] adds its message at the end of its date's group. *)
Lemma processLog_plain dailyLog log :
  log <> [] -> lineDate log ∉ objectPrototypeKeys ->
  processLog dailyLog log
  = Ret (<[lineDate log := rawMessages dailyLog (lineDate log) ++ [lineMessage log]]> dailyLog).
Proof.
  intros Hlog Hkey. unfold processLog, rawMessages. destruct log; [done |].
  rewrite getProperty_plain by done.
  by destruct (dailyLog !! _).
Qed.

Lemma groupedMessages_nil date : groupedMessages date [] = [].
Proof. done. Qed.

Lemma groupedMessages_blank date logs :
  groupedMessages date ([] :: logs) = groupedMessages date logs.
Proof. unfold groupedMessages. rewrite filter_cons_False; [done | by intros []]. Qed.

Lemma groupedMessages_same log logs :
  log <> [] ->
  groupedMessages (lineDate log) (log :: logs)
  = lineMessage log :: groupedMessages (lineDate log) logs.
Proof. intros Hlog. unfold groupedMessages. by rewrite filter_cons_True. Qed.

Lemma groupedMessages_other date log logs :
  lineDate log <> date ->
  groupedMessages date (log :: logs) = groupedMessages date logs.
Proof.
  intros Hne. unfold groupedMessages. rewrite filter_cons_False; [done | by intros []].
Qed.

(** [forEach] over plain lines goes through, and leaves under each date
    what was there followed by the messages of the lines of that date. *)
Lemma forEachLog_plain logs dailyLog :
  Forall plainLine logs ->
  exists dailyLog',
    forEachLog logs dailyLog = Ret dailyLog' /\
    forall date,
      dailyLog' !! date
      = if decide (groupedMessages date logs = []) then dailyLog !! date
        else Some (rawMessages dailyLog date ++ groupedMessages date logs).
Proof.
  intros Hplain. revert dailyLog.
  induction Hplain as [|log logs Hlog _ IH]; intros dailyLog.
  - exists dailyLog. split; [done |]. intros date. by rewrite groupedMessages_nil.
  - destruct (decide (log = [])) as [-> | Hne].
    + destruct (IH dailyLog) as (dailyLog' & Hrun & Hgroups).
      exists dailyLog'. split; [done |]. intros date.
      by rewrite groupedMessages_blank.
    + destruct Hlog as [? | Hkey]; [done |].
      set (dailyLog1 := <[lineDate log :=
              rawMessages dailyLog (lineDate log) ++ [lineMessage log]]> dailyLog).
      destruct (IH dailyLog1) as (dailyLog' & Hrun & Hgroups).
      exists dailyLog'. split.
      { cbn [forEachLog]. by rewrite processLog_plain. }
      intros date. rewrite Hgroups. unfold rawMessages, dailyLog1.
      destruct (decide (lineDate log = date)) as [<- | Hdate].
      * rewrite groupedMessages_same, lookup_insert_eq by done.
        rewrite (decide_False (P := _ :: _ = [])) by done. simpl.
        destruct (decide (groupedMessages (lineDate log) logs = [])) as [-> | _].
        -- done.
        -- by rewrite <- app_assoc.
      * rewrite groupedMessages_other, lookup_insert_ne by done. done.
Qed.

(** No group is ever filed under the name of a member of
    [Object.prototype]: from there on a line that is not plain makes
    [forEach] throw. *)
Lemma forEachLog_not_plain logs dailyLog :
  (forall key, key ∈ objectPrototypeKeys -> dailyLog !! key = None) ->
  ~ Forall plainLine logs ->
  forEachLog logs dailyLog = Throw TypeError.
Proof.
  revert dailyLog. induction logs as [|log logs IH]; intros dailyLog Hown Hlogs.
  - by destruct Hlogs.
  - cbn [forEachLog]. destruct (decide (plainLine log)) as [[-> | Hkey] | Hlog].
    + apply IH; [done |]. intros Hrest. apply Hlogs. constructor; [by left | done].
    + destruct (decide (log = [])) as [-> | Hne].
      { apply IH; [done |]. intros Hrest. apply Hlogs. constructor; [by left | done]. }
      rewrite processLog_plain by done. apply IH.
      * intros key Hin. rewrite lookup_insert_ne; [by apply Hown |].
        by intros <-.
      * intros Hrest. apply Hlogs. constructor; [by right | done].
    + assert (log <> [] /\ lineDate log ∈ objectPrototypeKeys) as [Hne Hin].
      { unfold plainLine in Hlog. split.
        - intros ->. apply Hlog. by left.
        - destruct (decide (lineDate log ∈ objectPrototypeKeys)); [done |].
          exfalso. apply Hlog. by right. }
      unfold processLog, getProperty. destruct log; [done |].
      by rewrite (Hown _ Hin), bool_decide_eq_true_2.
Qed.






End DailyLogFacts.

(** ** The date strings of the sheet *)

Section DateStrings.
Local Open Scope N_scope.

Lemma digit_range n : 48 <= digit (n mod 10) <= 57.
Proof. unfold digit. pose proof (Z.mod_pos_bound n 10). lia. Qed.

(** An ISO string begins with a digit or a sign. *)
Lemma isoString_head t : exists c rest, isoString t = c :: rest /\ 43 <= c <= 57.
Proof.
  unfold isoString, isoYear.
  destruct (_ && _).
  - eexists _, _. split; [reflexivity |].
    pose proof (digit_range (YearFromTime t / 10 / 10 / 10)). lia.
  - destruct (_ <? _)%Z; eexists _, _; (split; [reflexivity |]); simpl; lia.
Qed.

Lemma hd_splitFrom_prefix (sep cur s : jsstring) :
  exists x, hd [] (splitFrom sep 0 cur s) = rev cur ++ x.
Proof.
  revert cur. induction s as [|c s IH]; intros cur; cbn [splitFrom].
  - exists []. simpl. by rewrite app_nil_r.
  - destruct (startsWith sep (c :: s)).
    + exists []. simpl. by rewrite app_nil_r.
    + destruct (IH (c :: cur)) as [x ->]. exists (c :: x).
      simpl. by rewrite <- app_assoc.
Qed.

Lemma hd_split_head (sep : jsstring) c s :
  sep <> [] -> startsWith sep (c :: s) = false ->
  exists x, hd [] (split sep (c :: s)) = c :: x.
Proof.
  intros Hsep Hstart. destruct sep as [|a sep]; [done |].
  unfold split. cbn [splitFrom]. rewrite Hstart.
  apply (hd_splitFrom_prefix _ [c]).
Qed.

Lemma dateStrOf_head t : exists c rest, dateStrOf t = c :: rest /\ 43 <= c <= 57.
Proof.
  unfold dateStrOf. destruct (isoString_head t) as (c & rest & -> & Hc).
  destruct (hd_split_head (lit "T") c rest) as [x ->]; [done | | by exists c, x].
  simpl. apply decide_False. simpl. lia.
Qed.

(** No [dateStr] is the name of a member of [Object.prototype]: those
    begin with a letter or an underscore. *)
Lemma dateStr_not_inherited t : dateStrOf t ∉ objectPrototypeKeys.
Proof.
  destruct (dateStrOf_head t) as (c & rest & -> & Hc).
  unfold objectPrototypeKeys. cbn [fmap list_fmap lit].
  rewrite !not_elem_of_cons. repeat split; try apply not_elem_of_nil.
  all: intros [= -> _]; simpl in Hc; lia.
Qed.

End DateStrings.

(** ** The loop over the days *)

Section BuilderFacts.
Variable env : Env.
Variable openai : jsstring.
Variable dailyLog : gmap jsstring (list jsstring).
Variables year month : Z.

Lemma M_bind_run {A B} (m : M A) (f : A -> M B) w a w' :
  m w = (Ret a, w') -> (m ≫= f) w = f a w'.
Proof. intros Hm. unfold mbind, M_bind. by rewrite Hm. Qed.

Lemma chatCalls_app w w' : chatCalls (w ++ w') = chatCalls w + chatCalls w'.
Proof. unfold chatCalls. by rewrite filter_app, length_app. Qed.

Lemma chatCalls_formatEvents k messages :
  chatCalls (formatEvents env openai k messages) = 1.
Proof. unfold formatEvents. by destruct (chatCompletion _ _ _ _). Qed.

Lemma chatCalls_dayEventsOf k t :
  chatCalls (dayEventsOf env openai dailyLog k t) = dayCalls dailyLog t.
Proof.
  unfold dayEventsOf, dayCalls. case_bool_decide; [done |].
  apply chatCalls_formatEvents.
Qed.

Lemma formatCommitMessages_run messages w :
  formatCommitMessages env messages openai w
  = (Ret (formatted env openai (chatCalls w) messages),
     w ++ formatEvents env openai (chatCalls w) messages).
Proof.
  unfold formatCommitMessages, formatted, formatEvents, chatCompletionsCreate,
    consoleError, emit, mbind, M_bind, mret, M_ret.
  destruct (chatCompletion _ _ _ _) as [content | message]; [done |].
  by rewrite <- app_assoc.
Qed.

Lemma dayBody_run t data total w :
  dayBody env openai dailyLog (Some t) (data, total) w
  = (Ret (data ++ [dayRecordOf env openai dailyLog (chatCalls w) t],
          (total + WorkedHours (dayRecordOf env openai dailyLog (chatCalls w) t))%Z),
     w ++ dayEventsOf env openai dailyLog (chatCalls w) t).
Proof.
  unfold dayBody. cbn [toISOString fmap option_fmap option_map].
  fold (dateStrOf t).
  rewrite orEmpty_getProperty_plain by apply dateStr_not_inherited.
  unfold dayRecordOf, dayEventsOf.
  destruct (rawMessages dailyLog (dateStrOf t)) as [|message messages] eqn:Hraw.
  - cbn. by rewrite app_nil_r.
  - rewrite (bool_decide_eq_true_2 (length _ <> 0)) by done.
    rewrite (M_bind_run _ _ _ _ _ (formatCommitMessages_run _ _)).
    rewrite (bool_decide_eq_true_2 (0 < length _)) by (simpl; lia).
    rewrite (bool_decide_eq_true_2 (_ :: _ <> [])) by done.
    by rewrite (bool_decide_eq_false_2 (_ :: _ = [])) by done.
Qed.

Lemma sumHours_app data data' : sumHours (data ++ data') = (sumHours data + sumHours data')%Z.
Proof. induction data as [|row data IH]; simpl; [done | rewrite IH; lia]. Qed.

(** The loop computes the closed form. *)
Lemma forDays_run days data total w :
  let ts := visited env year month days in
  forDays env openai dailyLog year month days (data, total) w
  = (Ret (data ++ dayRecords env openai dailyLog (chatCalls w) ts,
          (total + sumHours (dayRecords env openai dailyLog (chatCalls w) ts))%Z),
     w ++ dayEvents env openai dailyLog (chatCalls w) ts).
Proof.
  revert data total w. induction days as [|i days IH]; intros data total w; cbn zeta.
  - cbn. by rewrite !app_nil_r, Z.add_0_r.
  - cbn [forDays visited].
    destruct (newDate (localTZA env) year (month - 1) i) as [t |] eqn:Hdate.
    2: { cbn. by rewrite !app_nil_r, Z.add_0_r. }
    cbn [getMonth fmap option_fmap option_map compose].
    destruct (decide ((MonthFromTime (LocalTime (localTZA env) t) + 1)%Z = month))
      as [Hmonth | Hmonth].
    + rewrite (bool_decide_eq_true_2 (Some _ = Some _))
        by (f_equal; unfold Z.succ; exact Hmonth).
      rewrite (bool_decide_eq_true_2 _ Hmonth).
      rewrite (M_bind_run _ _ _ _ _ (dayBody_run _ _ _ _)).
      rewrite IH. cbn zeta. rewrite chatCalls_app, chatCalls_dayEventsOf.
      cbn [dayRecords dayEvents sumHours foldr].
      f_equal; [f_equal; f_equal |].
      * by rewrite <- app_assoc.
      * fold (sumHours (dayRecords env openai dailyLog
                 (chatCalls w + dayCalls dailyLog t) (visited env year month days))).
        lia.
      * by rewrite <- app_assoc.
    + rewrite (bool_decide_eq_false_2 (Some _ = Some _))
        by (intros [= Heq]; unfold Z.succ in Heq; done).
      rewrite (bool_decide_eq_false_2 _ Hmonth).
      cbn. by rewrite !app_nil_r, Z.add_0_r.
Qed.

Lemma buildTimesheet_run w :
  let ts := visited env year month (seqZ 1 31) in
  buildTimesheet env openai dailyLog year month w
  = (Ret (dayRecords env openai dailyLog (chatCalls w) ts,
          sumHours (dayRecords env openai dailyLog (chatCalls w) ts)),
     w ++ dayEvents env openai dailyLog (chatCalls w) ts).
Proof. unfold buildTimesheet. by rewrite forDays_run. Qed.

Lemma busyDays_cons row data :
  busyDays dailyLog (row :: data)
  = (if bool_decide (rawMessages dailyLog (Date row) = []) then 0 else 1)
    + busyDays dailyLog data.
Proof.
  unfold busyDays. case_bool_decide as Hraw.
  - by rewrite filter_cons_False by (intros Hne; by apply Hne).
  - by rewrite filter_cons_True.
Qed.

(** Row [j] is the round of the [j]-th day visited, whose chat completion,
    if it asks for one, comes after those of the rows before it. *)
Lemma dayRecords_lookup ts k j row :
  dayRecords env openai dailyLog k ts !! j = Some row ->
  exists t,
    ts !! j = Some t /\
    row = dayRecordOf env openai dailyLog
            (k + busyDays dailyLog (take j (dayRecords env openai dailyLog k ts))) t.
Proof.
  revert k j. induction ts as [|t ts IH]; intros k j Hrow; [done |].
  destruct j as [|j]; cbn [dayRecords] in *.
  - injection Hrow as <-. exists t. split; [done |].
    unfold busyDays. simpl. by rewrite Nat.add_0_r.
  - apply IH in Hrow as (t' & Ht' & ->). exists t'. split; [done |].
    cbn [take]. rewrite busyDays_cons. cbn [Date dayRecordOf].
    unfold dayCalls. f_equal. lia.
Qed.

Lemma visited_lookup days j t :
  visited env year month days !! j = Some t ->
  exists i, days !! j = Some i /\ newDate (localTZA env) year (month - 1) i = Some t.
Proof.
  revert j. induction days as [|i days IH]; intros j Ht; [done |].
  cbn [visited] in Ht.
  destruct (newDate (localTZA env) year (month - 1) i) as [t' |] eqn:Hdate; [| done].
  case_bool_decide; [| done].
  destruct j as [|j].
  - injection Ht as ->. by exists i.
  - apply IH in Ht as (i' & Hi' & Hdate'). by exists i'.
Qed.

(** Row [j] of the sheet belongs to day [j + 1] of the month. *)
Lemma visited_days_lookup j t :
  visited env year month (seqZ 1 31) !! j = Some t ->
  newDate (localTZA env) year (month - 1) (Z.of_nat j + 1) = Some t.
Proof.
  intros Ht. apply visited_lookup in Ht as (i & Hi & Hdate).
  apply lookup_seqZ in Hi as [-> _]. by rewrite Z.add_comm.
Qed.

End BuilderFacts.

(** ** Time values and the calendar *)

(** The twelve cases of a month number. *)
Ltac months m Hm :=
  assert (m = 1 \/ m = 2 \/ m = 3 \/ m = 4 \/ m = 5 \/ m = 6 \/ m = 7 \/ m = 8
          \/ m = 9 \/ m = 10 \/ m = 11 \/ m = 12)%Z as Hcases by lia;
  clear Hm; repeat destruct Hcases as [-> | Hcases]; [.. | subst m].

Ltac eval_monthStart :=
  repeat match goal with
    | |- context [monthStart ?leap ?mn] =>
        let v := eval vm_compute in (monthStart leap mn) in
        change (monthStart leap mn) with v
    end.

Ltac compare_all :=
  repeat match goal with
    | |- context [(?a <? ?b)%Z] => destruct (Z.ltb_spec a b); try lia
    end.

Section TimeFacts.
Local Open Scope Z_scope.

Lemma DayFromYear_succ y : DayFromYear (y + 1) = DayFromYear y + DaysInYear y.
Proof.
  unfold DayFromYear, DaysInYear.
  destruct (Z.eqb_spec (y mod 4) 0), (Z.eqb_spec (y mod 100) 0),
    (Z.eqb_spec (y mod 400) 0); cbn [negb]; Z.div_mod_to_equations; lia.
Qed.

(** A year has 365.2425 days on average. *)
Lemma DayFromYear_estimate y :
  1460970 * (y - 1970) - 6070 < 4000 * DayFromYear y < 1460970 * (y - 1970) + 5930.
Proof. unfold DayFromYear. Z.div_mod_to_equations. lia. Qed.

Lemma DayFromYear_mono y y' : y <= y' -> DayFromYear y <= DayFromYear y'.
Proof. unfold DayFromYear. intros. Z.div_mod_to_equations. lia. Qed.

Lemma YearFromDay_spec d :
  DayFromYear (YearFromDay d) <= d < DayFromYear (YearFromDay d + 1).
Proof.
  unfold YearFromDay. cbv zeta.
  set (g := 1970 + 400 * d / 146097).
  assert (146097 * (g - 1970) <= 400 * d < 146097 * (g - 1970) + 146097) as Hg
    by (subst g; Z.div_mod_to_equations; lia).
  pose proof (DayFromYear_estimate (g - 1)).
  pose proof (DayFromYear_estimate g).
  pose proof (DayFromYear_estimate (g + 1)).
  pose proof (DayFromYear_estimate (g + 2)).
  destruct (Z.ltb_spec d (DayFromYear g)).
  - replace (g - 1 + 1) with g by lia. lia.
  - destruct (Z.leb_spec (DayFromYear (g + 1)) d).
    + replace (g + 1 + 1) with (g + 2) by lia. lia.
    + lia.
Qed.

(** [YearFromDay d] is the year ECMA-262 asks for: the one whose days
    include [d], and so the largest [y] with [DayFromYear y <= d]. *)
Lemma YearFromDay_unique y d :
  DayFromYear y <= d < DayFromYear (y + 1) -> YearFromDay d = y.
Proof.
  intros Hd. pose proof (YearFromDay_spec d) as Hspec.
  destruct (Z.lt_trichotomy (YearFromDay d) y) as [Hlt | [Heq | Hgt]]; [| done |].
  - pose proof (DayFromYear_mono (YearFromDay d + 1) y). lia.
  - pose proof (DayFromYear_mono (y + 1) (YearFromDay d)). lia.
Qed.

Lemma YearFromDay_largest d y : DayFromYear y <= d -> y <= YearFromDay d.
Proof.
  intros Hy. pose proof (YearFromDay_spec d) as Hspec.
  destruct (Z.le_gt_cases y (YearFromDay d)) as [| Hgt]; [done |].
  pose proof (DayFromYear_mono (YearFromDay d + 1) y). lia.
Qed.

Lemma DaysInYear_leap y : DaysInYear y = if isLeapYear y then 366 else 365.
Proof.
  unfold DaysInYear, isLeapYear.
  by destruct (y mod 4 =? 0), (y mod 100 =? 0), (y mod 400 =? 0).
Qed.

Lemma Day_MakeDate day time : 0 <= time < msPerDay -> Day (MakeDate day time) = day.
Proof. unfold Day, MakeDate, msPerDay. intros. Z.div_mod_to_equations. lia. Qed.

(** The fields of a time of day [time] on day [k] of year [y]. *)
Lemma year_fields y k time :
  0 <= k < DaysInYear y -> 0 <= time < msPerDay ->
  let t := MakeDate (DayFromYear y + k) time in
  YearFromTime t = y /\ DayWithinYear t = k /\
  InLeapYear t = (if isLeapYear y then 1 else 0).
Proof.
  intros Hk Htime t.
  assert (YearFromTime t = y) as Hyear.
  { unfold YearFromTime, t. rewrite Day_MakeDate by done.
    apply YearFromDay_unique. rewrite DayFromYear_succ. lia. }
  split; [done |]. split.
  - unfold DayWithinYear. rewrite Hyear. unfold t. rewrite Day_MakeDate by done. lia.
  - unfold InLeapYear. rewrite Hyear, DaysInYear_leap. by destruct (isLeapYear y).
Qed.

Lemma MakeDay_month y m d :
  1 <= m <= 12 ->
  MakeDay y (m - 1) d
  = DayFromYear y + (monthStart (if isLeapYear y then 1 else 0) (m - 1) + d - 1).
Proof.
  intros Hm. unfold MakeDay.
  rewrite Z.div_small, Z.mod_small, Z.add_0_r, DaysInYear_leap by lia.
  destruct (isLeapYear y); cbn; lia.
Qed.

(** A day of the month [m] of the year [y] has the fields it was made of. *)
Lemma month_fields y m d time :
  1 <= m <= 12 -> 1 <= d <= numberOfDaysIn y m -> 0 <= time < msPerDay ->
  let t := MakeDate (MakeDay y (m - 1) d) time in
  YearFromTime t = y /\ MonthFromTime t = m - 1 /\ DateFromTime t = d.
Proof.
  intros Hm Hd Htime t. subst t. rewrite MakeDay_month by done.
  set (leap := if isLeapYear y then 1 else 0) in *.
  set (k := monthStart leap (m - 1) + d - 1).
  assert (0 <= k < DaysInYear y) as Hk.
  { subst k leap. rewrite DaysInYear_leap. unfold numberOfDaysIn in Hd.
    months m Hm; destruct (isLeapYear y); eval_monthStart; lia. }
  destruct (year_fields y k time Hk Htime) as (Hyear & Hday & Hleap).
  fold leap in Hleap. cbv zeta in *.
  split; [done |].
  assert (MonthFromTime (MakeDate (DayFromYear y + k) time) = m - 1) as Hmonth.
  { unfold MonthFromTime. rewrite Hday, Hleap. subst k. unfold numberOfDaysIn in Hd.
    subst leap.
    months m Hm; destruct (isLeapYear y); eval_monthStart; compare_all; lia. }
  split; [done |].
  unfold DateFromTime. rewrite Hmonth, Hday, Hleap. subst k leap.
  unfold numberOfDaysIn in Hd.
  months m Hm; destruct (isLeapYear y); eval_monthStart;
    match goal with
    | |- context [match ?mn with _ => _ end] =>
        let v := eval vm_compute in mn in change mn with v
    end; cbv beta iota; lia.
Qed.

Lemma numberOfDaysIn_range y m : 1 <= m <= 12 -> 28 <= numberOfDaysIn y m <= 31.
Proof.
  intros Hm. unfold numberOfDaysIn.
  months m Hm; try lia; by destruct (isLeapYear y).
Qed.

(** [MakeDay] starts from the time value ECMA-262 asks for: one in the
    year [year + floor(month / 12)] and the month [month mod 12], on the
    first of the month. *)
Lemma MakeDay_first_of_month year month :
  let t := MakeDate (MakeDay year month 1) 0 in
  YearFromTime t = year + month / 12 /\
  MonthFromTime t = month mod 12 /\
  DateFromTime t = 1.
Proof.
  pose proof (Z.mod_pos_bound month 12) as Hmn.
  replace (MakeDay year month 1)
    with (MakeDay (year + month / 12) (month mod 12 + 1 - 1) 1).
  - destruct (month_fields (year + month / 12) (month mod 12 + 1) 1 0)
      as (Hy & Hm & Hd); [lia | | done |].
    + pose proof (numberOfDaysIn_range (year + month / 12) (month mod 12 + 1)). lia.
    + cbv zeta. split; [done |]. split; [lia | done].
  - unfold MakeDay. replace (month mod 12 + 1 - 1) with (month mod 12) by lia.
    rewrite Z.mod_mod, (Z.div_small (month mod 12)), Z.add_0_r by lia. done.
Qed.

Example epoch_fields :
  YearFromTime 0 = 1970 /\ MonthFromTime 0 = 0 /\ DateFromTime 0 = 1 /\ WeekDay 0 = 4.
Proof. by_evaluation. Qed.

(** 1 June 2024 was a Saturday, 3 June a Monday. *)
Example june_2024_week_days :
  WeekDay (MakeDate (MakeDay 2024 5 1) 0) = 6 /\
  WeekDay (MakeDate (MakeDay 2024 5 3) 0) = 1.
Proof. by_evaluation. Qed.

(** In a month of fewer than 31 days, the days past its end fall in the
    month after it. *)
Lemma month_overflow y m d time :
  1 <= m <= 12 -> numberOfDaysIn y m < d <= 31 -> 0 <= time < msPerDay ->
  MonthFromTime (MakeDate (MakeDay y (m - 1) d) time) = m.
Proof.
  intros Hm Hd Htime. rewrite MakeDay_month by done.
  set (leap := if isLeapYear y then 1 else 0) in *.
  set (k := monthStart leap (m - 1) + d - 1).
  assert (0 <= k < DaysInYear y) as Hk.
  { subst k leap. rewrite DaysInYear_leap. unfold numberOfDaysIn in Hd.
    months m Hm; destruct (isLeapYear y); eval_monthStart; lia. }
  destruct (year_fields y k time Hk Htime) as (Hyear & Hday & Hleap).
  fold leap in Hleap. cbv zeta in *.
  unfold MonthFromTime. rewrite Hday, Hleap. subst k leap.
  unfold numberOfDaysIn in Hd.
  months m Hm; destruct (isLeapYear y); eval_monthStart; compare_all; try lia.
Qed.

Lemma newDate_fullYear tza year m d :
  fullYear year -> 1 <= m <= 12 -> 0 <= d <= 31 ->
  - msPerDay <= tza (MakeDate (MakeDay year (m - 1) d) 0) false <= msPerDay ->
  newDate tza year (m - 1) d = Some (UTC tza (MakeDate (MakeDay year (m - 1) d) 0)).
Proof.
  unfold fullYear. intros Hyear Hm Hd Htza. unfold newDate, UTC, MakeTime, TimeClip.
  rewrite andb_false_intro2 by lia.
  change (0 * msPerHour + 0 * msPerMinute + 0 * msPerSecond + 0) with 0.
  set (offset := tza _ false) in *. clearbody offset.
  rewrite MakeDay_month by done.
  set (k := monthStart _ _ + d - 1).
  assert (-1 <= k <= 366) as Hk.
  { subst k. months m Hm; destruct (isLeapYear year); eval_monthStart; lia. }
  pose proof (DayFromYear_estimate year) as Hestimate.
  unfold MakeDate, msPerDay in *.
  by rewrite (proj2 (Z.ltb_ge _ _)) by lia.
Qed.

End TimeFacts.

(** ** The days of the month *)

Section DateStringFacts.

Lemma padDigits_range w n : Forall (fun c => 48 <= c <= 57)%N (padDigits w n).
Proof.
  revert n. induction w as [|w IH]; intros n; cbn [padDigits]; [done |].
  apply Forall_app. split; [apply IH |]. apply Forall_singleton, digit_range.
Qed.

(** An ISO date is made of digits, hyphens and at most one plus sign. *)
Lemma isoDate_range y m d : Forall (fun c => 43 <= c <= 57)%N (isoDate y m d).
Proof.
  assert (forall w n, Forall (fun c => 43 <= c <= 57)%N (padDigits w n)) as Hdigits.
  { intros w n. eapply Forall_impl; [apply padDigits_range |]. simpl. lia. }
  unfold isoDate, isoYear. rewrite !Forall_app. repeat split; try apply Hdigits.
  - destruct (_ && _); [apply Hdigits |].
    apply Forall_app. split; [| apply Hdigits].
    destruct (_ <? _)%Z; by apply Forall_singleton.
  - by apply Forall_singleton.
  - by apply Forall_singleton.
Qed.

(** A separator behind a prefix that does not hold its first code unit
    is the first occurrence. *)
Lemma indexOf_behind (c : N) sep pre post :
  c ∉ pre -> indexOf (c :: sep) (pre ++ c :: sep ++ post) = Some (length pre).
Proof.
  induction pre as [|a pre IH]; intros Hpre.
  - cbn [app indexOf].
    replace (startsWith (c :: sep) (c :: sep ++ post)) with true; [done |].
    symmetry. apply startsWith_spec. by exists post.
  - apply not_elem_of_cons in Hpre as [Hne Hpre].
    cbn [app indexOf startsWith]. rewrite decide_False by done. by rewrite IH.
Qed.

(** The date string is the ISO date of the UTC fields of the time value. *)
Lemma dateStrOf_fields t y m d :
  YearFromTime t = y -> (MonthFromTime t + 1)%Z = m -> DateFromTime t = d ->
  dateStrOf t = isoDate y m d.
Proof.
  intros Hy Hm Hd. unfold dateStrOf, isoString. rewrite Hy, Hm, Hd.
  set (time := padDigits 2 (HourFromTime t) ++ _).
  transitivity (hd [] (split (lit "T") (isoDate y m d ++ 84%N :: time))).
  { unfold isoDate. by rewrite <- !app_assoc. }
  rewrite (split_indexOf_Some _ _ (length (isoDate y m d))).
  - cbn [hd]. by rewrite take_app_length.
  - done.
  - apply (indexOf_behind 84%N []). intros Hin.
    pose proof (isoDate_range y m d) as Hrange.
    rewrite Forall_forall in Hrange. apply Hrange in Hin. lia.
Qed.

Lemma isoDate_not_inherited y m d : isoDate y m d ∉ objectPrototypeKeys.
Proof.
  pose proof (isoDate_range y m d) as Hrange. intros Hin.
  unfold objectPrototypeKeys in Hin. cbn [fmap list_fmap] in Hin.
  rewrite !elem_of_cons, elem_of_nil in Hin.
  destruct_or!; try done; rewrite Hin in Hrange;
    apply Forall_cons in Hrange as [Hc _]; simpl in Hc; lia.
Qed.

(** The lines the log source writes, an ISO date, the separator and the
    subject, are plain lines, split behind the date. *)
Lemma isoDated_line y m d rest :
  let log := isoDate y m d ++ separator ++ rest in
  plainLine log /\ lineDate log = isoDate y m d /\ lineMessage log = trim rest.
Proof.
  intros log.
  assert (indexOf separator log = Some (length (isoDate y m d))) as Hindex.
  { apply (indexOf_behind 32%N). intros Hin.
    pose proof (isoDate_range y m d) as Hrange.
    rewrite Forall_forall in Hrange. apply Hrange in Hin. lia. }
  pose proof (lineDate_indexOf_Some _ _ Hindex) as HlineDate.
  pose proof (lineMessage_indexOf_Some _ _ Hindex) as HlineMessage.
  subst log. rewrite take_app_length in HlineDate.
  rewrite drop_app_add, drop_app_length in HlineMessage.
  split; [| done]. right. rewrite HlineDate. apply isoDate_not_inherited.
Qed.

End DateStringFacts.

Section MonthFacts.
Variable env : Env.
Variable openai : jsstring.
Variable dailyLog : gmap jsstring (list jsstring).
Variables year month : Z.
Hypothesis Hyear : fullYear year.
Hypothesis Hmonth : (1 <= month <= 12)%Z.
Local Open Scope Z_scope.

Lemma midnight_offset d :
  midnight env year month d
  = MakeDate (MakeDay year (month - 1) d) (- offsetOfDay env year month d).
Proof. unfold midnight, UTC, offsetOfDay, localMidnight, MakeDate. lia. Qed.

Lemma dayRecords_dates k ts :
  Date <$> dayRecords env openai dailyLog k ts = dateStrOf <$> ts.
Proof.
  revert k. induction ts as [|t ts IH]; intros k; [done |].
  cbn [dayRecords fmap list_fmap]. cbn [dayRecordOf Date]. f_equal. apply IH.
Qed.

Lemma dayRecords_length k ts : length (dayRecords env openai dailyLog k ts) = length ts.
Proof. revert k. induction ts as [|t ts IH]; intros k; simpl; [done | by rewrite IH]. Qed.

(** A day that begins on or west of Greenwich begins on the same day in
    UTC. *)
Lemma dateStrOf_midnight_west d :
  - msPerDay < offsetOfDay env year month d <= 0 ->
  1 <= d <= numberOfDaysIn year month ->
  dateStrOf (midnight env year month d) = isoDate year month d.
Proof.
  intros Hwest Hd. rewrite midnight_offset.
  destruct (month_fields year month d (- offsetOfDay env year month d))
    as (Hy & Hm & Hdate); [done | done | lia |].
  apply dateStrOf_fields; [done | lia | done].
Qed.

(** A day that begins east of Greenwich begins on the day before in
    UTC. *)
Lemma dateStrOf_midnight_east d :
  0 < offsetOfDay env year month d <= msPerDay ->
  2 <= d <= numberOfDaysIn year month + 1 ->
  dateStrOf (midnight env year month d) = isoDate year month (d - 1).
Proof.
  intros Heast Hd. rewrite midnight_offset.
  replace (MakeDate (MakeDay year (month - 1) d) (- offsetOfDay env year month d))
    with (MakeDate (MakeDay year (month - 1) (d - 1))
            (msPerDay - offsetOfDay env year month d))
    by (unfold MakeDate, MakeDay; lia).
  destruct (month_fields year month (d - 1) (msPerDay - offsetOfDay env year month d))
    as (Hy & Hm & Hdate); [done | lia | lia |].
  apply dateStrOf_fields; [done | lia | done].
Qed.

Hypothesis Hzone : zoneKeepsDays env year month.

Lemma newDate_midnight d :
  1 <= d <= 31 ->
  newDate (localTZA env) year (month - 1) d = Some (midnight env year month d).
Proof.
  intros Hd. destruct (Hzone d Hd) as [Hoffset _].
  by rewrite newDate_fullYear by (done || lia).
Qed.

(** Read back in local time, the Date of day [d] is a time of day [d]. *)
Lemma LocalTime_midnight d :
  1 <= d <= 31 ->
  exists time, 0 <= time < msPerDay /\
    LocalTime (localTZA env) (midnight env year month d)
    = MakeDate (MakeDay year (month - 1) d) time.
Proof.
  intros Hd. destruct (Hzone d Hd) as [_ Hback].
  exists (LocalTime (localTZA env) (midnight env year month d)
          - localMidnight year month d).
  split; [done |]. unfold localMidnight, MakeDate. lia.
Qed.

Lemma visited_in_month days rest :
  Forall (fun d => 1 <= d <= numberOfDaysIn year month) days ->
  visited env year month (days ++ rest)
  = (midnight env year month <$> days) ++ visited env year month rest.
Proof.
  pose proof (numberOfDaysIn_range year month Hmonth) as Hrange.
  induction 1 as [|d days Hd _ IH]; [done |].
  cbn [app visited]. rewrite newDate_midnight by lia.
  destruct (LocalTime_midnight d) as (time & Htime & ->); [lia |].
  destruct (month_fields year month d time Hmonth Hd Htime) as (_ & -> & _).
  rewrite bool_decide_eq_true_2 by lia. by rewrite IH.
Qed.

Lemma visited_past_end d rest :
  numberOfDaysIn year month < d <= 31 -> visited env year month (d :: rest) = [].
Proof.
  pose proof (numberOfDaysIn_range year month Hmonth) as Hrange. intros Hd.
  cbn [visited]. rewrite newDate_midnight by lia.
  destruct (LocalTime_midnight d) as (time & Htime & ->); [lia |].
  rewrite month_overflow by done. by rewrite bool_decide_eq_false_2 by lia.
Qed.

(** The loop visits the days of the month, all of them and no other. *)
Lemma visited_month :
  visited env year month (seqZ 1 31)
  = midnight env year month <$> seqZ 1 (numberOfDaysIn year month).
Proof.
  pose proof (numberOfDaysIn_range year month Hmonth) as Hrange.
  set (n := numberOfDaysIn year month) in *.
  replace 31 with (n + (31 - n)) by lia. rewrite seqZ_app by lia.
  rewrite visited_in_month by (apply Forall_seqZ; lia).
  destruct (decide (n = 31)) as [-> | Hn].
  - by rewrite app_nil_r.
  - rewrite (seqZ_cons (1 + n)) by lia.
    rewrite visited_past_end by lia. by rewrite app_nil_r.
Qed.

(** The sheet of a month, row by row. *)
Lemma buildTimesheet_month w :
  buildTimesheet env openai dailyLog year month w
  = (let ts := midnight env year month <$> seqZ 1 (numberOfDaysIn year month) in
     (Ret (dayRecords env openai dailyLog (chatCalls w) ts,
           sumHours (dayRecords env openai dailyLog (chatCalls w) ts)),
      w ++ dayEvents env openai dailyLog (chatCalls w) ts)).
Proof. rewrite buildTimesheet_run. cbn zeta. by rewrite visited_month. Qed.

(** [getDay] reads the week day of the local day. *)
Lemma isWeekend_midnight d :
  1 <= d <= 31 ->
  isWeekend env (Some (midnight env year month d))
  = bool_decide (WeekDay (MakeDate (MakeDay year (month - 1) d) 0) = 0)
    || bool_decide (WeekDay (MakeDate (MakeDay year (month - 1) d) 0) = 6).
Proof.
  intros Hd. unfold isWeekend. cbn [getDay fmap option_fmap option_map compose].
  destruct (LocalTime_midnight d Hd) as (time & Htime & ->).
  unfold WeekDay. rewrite !Day_MakeDate by (done || unfold msPerDay; lia).
  f_equal; apply bool_decide_ext; (split; [by intros [= ->] | by intros ->]).
Qed.

End MonthFacts.

(** ** The whole run *)

Section RunFacts.
Variable env : Env.

Lemma updateGoogleSheet_run sheetId data auth w :
  updateGoogleSheet env sheetId data auth w
  = (Ret (),
     w ++ [SheetsValuesUpdate sheetId (sheetValues data);
           match sheetsUpdate env auth sheetId (sheetValues data) with
           | None => ConsoleLog (lit "Google Sheet updated successfully!")
           | Some message =>
               ConsoleError (lit "Error updating Google Sheet:" ++ lit " " ++ message)
           end]).
Proof.
  unfold updateGoogleSheet, consoleLog, consoleError, emit, mbind, M_bind.
  destruct (sheetsUpdate _ _ _ _); cbn [join]; by rewrite <- app_assoc.
Qed.

(** A run that gets its credentials and its logs, all of them plain lines,
    goes through the loop and on to the spreadsheet. *)
Lemma generateTimesheet_run apiKey author sheetId auth output dailyLog :
  apiKey <> [] -> sheetId <> [] ->
  credentialsFile env = Credentials auth ->
  execSync env (gitLogCommand env author) = Some output ->
  forEachLog (split newline output) ∅ = Ret dailyLog ->
  let ts := visited env (currentYear env) (currentMonth env) (seqZ 1 31) in
  let data := dayRecords env apiKey dailyLog 0 ts in
  generateTimesheet env apiKey author sheetId []
  = updateGoogleSheet env sheetId data auth
      (ExecSync (gitLogCommand env author) :: dayEvents env apiKey dailyLog 0 ts).
Proof.
  intros HapiKey HsheetId Hcredentials HexecSync HforEach ts data.
  unfold generateTimesheet.
  destruct apiKey as [|? ?]; [done |]. destruct sheetId as [|? ?]; [done |].
  rewrite Hcredentials.
  unfold emit, liftOutcome, mbind at 1 2, M_bind at 1 2.
  rewrite HexecSync, HforEach.
  rewrite (M_bind_run _ _ _ _ _ (buildTimesheet_run _ _ _ _ _ _)).
  done.
Qed.

End RunFacts.

(** ** Further facts on the loop and the run *)

Section LoopFacts.
Variable env : Env.
Variable openai : jsstring.
Variable dailyLog : gmap jsstring (list jsstring).
Variables year month : Z.

Lemma visited_length days : length (visited env year month days) <= length days.
Proof.
  induction days as [|i days IH]; cbn [visited]; [done |].
  destruct (newDate _ _ _ _); [| simpl; lia].
  case_bool_decide; simpl; lia.
Qed.

Lemma dayRecords_hours k ts :
  Forall (fun row => WorkedHours row = 0%Z \/ WorkedHours row = DEFAULT_HOURS)
    (dayRecords env openai dailyLog k ts).
Proof.
  revert k. induction ts as [|t ts IH]; intros k; cbn [dayRecords]; constructor.
  - cbn [dayRecordOf WorkedHours]. destruct (_ && _); [by right | by left].
  - apply IH.
Qed.

Lemma sumHours_whole_days data :
  Forall (fun row => WorkedHours row = 0%Z \/ WorkedHours row = DEFAULT_HOURS) data ->
  sumHours data
  = (DEFAULT_HOURS * Z.of_nat (length (filter (fun row => WorkedHours row <> 0%Z) data)))%Z.
Proof.
  induction 1 as [|row data Hrow _ IH]; [done |].
  cbn [sumHours foldr]. fold (sumHours data). rewrite IH.
  destruct Hrow as [Hrow | Hrow].
  - rewrite filter_cons_False by (intros Hne; by apply Hne). lia.
  - rewrite filter_cons_True by (rewrite Hrow; done). rewrite Hrow. simpl length. lia.
Qed.

Lemma chatPrompts_app w w' : chatPrompts (w ++ w') = chatPrompts w ++ chatPrompts w'.
Proof. apply omap_app. Qed.

Lemma chatPrompts_formatEvents k messages :
  chatPrompts (formatEvents env openai k messages) = [chatPrompt messages].
Proof. unfold formatEvents. by destruct (chatCompletion _ _ _ _). Qed.

(** The loop asks for one chat completion per row with raw messages, in
    the order of the rows, with the prompt made of those messages. *)
Lemma chatPrompts_dayEvents k ts :
  chatPrompts (dayEvents env openai dailyLog k ts)
  = chatPrompt ∘ rawMessages dailyLog ∘ Date
    <$> filter (fun row => rawMessages dailyLog (Date row) <> [])
          (dayRecords env openai dailyLog k ts).
Proof.
  revert k. induction ts as [|t ts IH]; intros k; [done |].
  cbn [dayRecords dayEvents]. rewrite chatPrompts_app, IH.
  unfold dayEventsOf, dayCalls.
  destruct (decide (rawMessages dailyLog (dateStrOf t) = [])) as [Hraw | Hraw].
  - rewrite !bool_decide_eq_true_2 by done.
    by rewrite filter_cons_False by (cbn [dayRecordOf Date]; intros Hne; by apply Hne).
  - rewrite !bool_decide_eq_false_2 by done.
    rewrite filter_cons_True by done.
    by rewrite chatPrompts_formatEvents.
Qed.



(** The trace of the loop is made of the blocks of its requests. *)
Lemma dayEvents_blocks k ts :
  exists blocks,
    dayEvents env openai dailyLog k ts = concat blocks /\
    Forall isRequestBlock blocks.
Proof.
  revert k. induction ts as [|t ts IH]; intros k; cbn [dayEvents].
  - by exists [].
  - destruct (IH (k + dayCalls dailyLog t)) as (blocks & -> & Hblocks).
    unfold dayEventsOf. case_bool_decide; [by exists blocks |].
    eexists (_ :: blocks). split; [done |]. constructor; [| done].
    unfold formatEvents. eexists.
    destruct (chatCompletion _ _ _ _); [by left | right; by eexists].
Qed.

Lemma dayEvents_kinds k ts :
  Forall (fun e => isChatCall e || isDiagnostic e = true)
    (dayEvents env openai dailyLog k ts).
Proof.
  revert k. induction ts as [|t ts IH]; intros k; cbn [dayEvents]; [done |].
  apply Forall_app. split; [| apply IH].
  unfold dayEventsOf. case_bool_decide; [done |].
  unfold formatEvents. destruct (chatCompletion _ _ _ _); by repeat constructor.
Qed.

End LoopFacts.

(** Blank lines leave the groups as they are. *)
Lemma forEachLog_blank logs dailyLog :
  Forall (fun log => log = []) logs -> forEachLog logs dailyLog = Ret dailyLog.
Proof. induction 1 as [|log logs -> _ IH]; [done | exact IH]. Qed.

Lemma dayEvents_no_logs env openai k ts :
  dayEvents env openai ∅ k ts = [].
Proof.
  revert k. induction ts as [|t ts IH]; intros k; cbn [dayEvents]; [done |].
  by rewrite IH.
Qed.

Lemma dayRecords_no_logs env openai k ts :
  Forall (fun row => Logs row = lit "No logs" /\ WorkedHours row = 0%Z)
    (dayRecords env openai ∅ k ts).
Proof.
  revert k. induction ts as [|t ts IH]; intros k; cbn [dayRecords]; constructor; [done |].
  apply IH.
Qed.

(** ** Further facts on strings, groups and dates *)

Lemma MonthFromTime_range t : (0 <= MonthFromTime t <= 11)%Z.
Proof.
  unfold MonthFromTime. cbv zeta.
  repeat match goal with
    | |- context [(?a <? ?b)%Z] => destruct (a <? b)%Z; [lia |]
    end.
  lia.
Qed.

Lemma currentMonth_range env : (1 <= currentMonth env <= 12)%Z.
Proof.
  unfold currentMonth.
  pose proof (MonthFromTime_range (LocalTime (localTZA env) (clock env 1))). lia.
Qed.

(** The values written: a header and a row per record, four cells each. *)
Lemma sheetValues_shape data :
  length (sheetValues data) = S (length data) /\
  Forall (fun cells => length cells = 4) (sheetValues data).
Proof.
  unfold sheetValues. split; [simpl; by rewrite length_fmap |].
  constructor; [done |]. apply Forall_fmap, Forall_true. done.
Qed.

Section TrimFacts.
Implicit Types s x : jsstring.

Lemma trimStart_idempotent s : trimStart (trimStart s) = trimStart s.
Proof.
  induction s as [|c s IH]; [done |]. cbn [trimStart].
  destruct (isWhiteSpace c) eqn:Hc; [done |]. cbn [trimStart]. by rewrite Hc.
Qed.

Lemma trimStart_snoc s c :
  isWhiteSpace c = false -> exists x, trimStart (s ++ [c]) = x ++ [c].
Proof.
  intros Hc. induction s as [|a s IH]; cbn [app trimStart].
  - rewrite Hc. by exists [].
  - destruct (isWhiteSpace a); [done |]. by exists (a :: s).
Qed.

Lemma trimEnd_idempotent s : trimEnd (trimEnd s) = trimEnd s.
Proof. unfold trimEnd. by rewrite rev_involutive, trimStart_idempotent. Qed.

Lemma trimStart_trimEnd s : trimStart s = s -> trimStart (trimEnd s) = trimEnd s.
Proof.
  destruct s as [|c s]; [done |]. cbn [trimStart].
  destruct (isWhiteSpace c) eqn:Hc.
  - intros Hs. pose proof (f_equal length Hs) as Hlen.
    assert (forall x, length (trimStart x) <= length x) as Hle.
    { clear. induction x as [|a x IH]; simpl; [done |].
      destruct (isWhiteSpace a); simpl; lia. }
    specialize (Hle s). simpl in Hlen. lia.
  - intros _. unfold trimEnd. cbn [rev].
    destruct (trimStart_snoc (rev s) c Hc) as [x ->].
    rewrite rev_app_distr. cbn [rev app trimStart]. by rewrite Hc.
Qed.

(** What [trim] returns has no white space left at either end. *)
Lemma trim_idempotent s : trim (trim s) = trim s.
Proof.
  unfold trim.
  rewrite (trimStart_trimEnd (trimStart s)) by apply trimStart_idempotent.
  apply trimEnd_idempotent.
Qed.

End TrimFacts.

Section KeyFacts.
Context {A : Type} `{EqDecision A}.
Implicit Types sep s : list A.

Lemma startsWith_take sep s n :
  startsWith sep (take n s) = true -> startsWith sep s = true.
Proof.
  rewrite !startsWith_spec. intros [q Hq]. exists (q ++ drop n s).
  rewrite app_assoc, <- Hq. by rewrite take_drop.
Qed.

(** The piece before the first separator holds no separator. *)
Lemma indexOf_take sep s n :
  sep <> [] -> indexOf sep s = Some n -> indexOf sep (take n s) = None.
Proof.
  intros Hsep. destruct sep as [|a sep]; [done |]. clear Hsep.
  revert n. induction s as [|c s IH]; intros n; [done |].
  cbn [indexOf].
  destruct (startsWith (a :: sep) (c :: s)) eqn:Hstart.
  - by intros [= <-].
  - destruct (indexOf (a :: sep) s) as [n' |] eqn:Hindex; [| done].
    intros [= <-]. cbn [take indexOf].
    destruct (startsWith (a :: sep) (c :: take n' s)) eqn:Hstart'.
    + apply (startsWith_take _ (c :: s) (S n')) in Hstart'. congruence.
    + by rewrite (IH n').
Qed.
End KeyFacts.

Lemma lineDate_no_separator log : indexOf separator (lineDate log) = None.
Proof.
  destruct (indexOf separator log) as [n |] eqn:Hindex.
  - rewrite (lineDate_indexOf_Some _ n) by done. by apply indexOf_take.
  - by rewrite lineDate_indexOf_None.
Qed.

Lemma lineMessage_trimmed log : trim (lineMessage log) = lineMessage log.
Proof. apply trim_idempotent. Qed.

Section CountFacts.
Implicit Types dailyLog : gmap jsstring (list jsstring).

Lemma messageCount_insert dailyLog key group :
  messageCount (<[key := group]> dailyLog) + length (rawMessages dailyLog key)
  = messageCount dailyLog + length group.
Proof.
  unfold messageCount, rawMessages.
  destruct (dailyLog !! key) as [old |] eqn:Hkey; cbn [default].
  - rewrite <- insert_delete_eq.
    rewrite map_fold_insert_L; [| intros; lia | apply lookup_delete_eq].
    rewrite (map_fold_delete_L _ _ key old dailyLog); [unfold id; lia | intros; lia | done].
  - rewrite map_fold_insert_L; [simpl; lia | intros; lia | done].
Qed.

Lemma forEachLog_count logs dailyLog dailyLog' :
  Forall plainLine logs ->
  forEachLog logs dailyLog = Ret dailyLog' ->
  messageCount dailyLog'
  = messageCount dailyLog + length (filter (fun log => log <> []) logs).
Proof.
  intros Hplain. revert dailyLog.
  induction Hplain as [|log logs Hlog _ IH]; intros dailyLog.
  - intros [= <-]. simpl. lia.
  - cbn [forEachLog]. destruct (decide (log = [])) as [-> | Hne].
    + intros Hrun. rewrite (IH _ Hrun).
      by rewrite filter_cons_False by (intros Hne; by apply Hne).
    + destruct Hlog as [? | Hkey]; [done |].
      rewrite processLog_plain by done. intros Hrun.
      rewrite (IH _ Hrun), filter_cons_True by done.
      pose proof (messageCount_insert dailyLog (lineDate log)
                    (rawMessages dailyLog (lineDate log) ++ [lineMessage log])) as Hcount.
      rewrite length_app in Hcount. simpl in *. lia.
Qed.

End CountFacts.

Section GroupsRead.
Variable env : Env.
Variable openai : jsstring.
Variables dailyLog dailyLog' : gmap jsstring (list jsstring).

(** The loop reads [dailyLog] at the date strings of its days only. *)
Lemma dayRecords_ext k ts :
  Forall (fun t => rawMessages dailyLog (dateStrOf t) = rawMessages dailyLog' (dateStrOf t)) ts ->
  dayRecords env openai dailyLog k ts = dayRecords env openai dailyLog' k ts /\
  dayEvents env openai dailyLog k ts = dayEvents env openai dailyLog' k ts.
Proof.
  intros Hsame. revert k. induction Hsame as [|t ts Ht _ IH]; intros k; [done |].
  cbn [dayRecords dayEvents]. unfold dayRecordOf, dayEventsOf, dayCalls.
  rewrite Ht. destruct (IH (k + (if bool_decide (rawMessages dailyLog' (dateStrOf t) = [])
                                then 0 else 1))) as [-> ->].
  done.
Qed.

End GroupsRead.

Section DigitFacts.
Local Open Scope Z_scope.

Lemma padDigits_2_inj n n' :
  0 <= n <= 99 -> 0 <= n' <= 99 -> padDigits 2 n = padDigits 2 n' -> n = n'.
Proof.
  intros Hn Hn'. cbn [padDigits app]. unfold digit. intros [= Htens Hunits].
  apply N.add_cancel_l, Z2N.inj in Htens, Hunits;
    try (apply Z.mod_pos_bound; lia).
  Z.div_mod_to_equations. lia.
Qed.

Lemma padDigits_length w n : length (padDigits w n) = w.
Proof.
  revert n. induction w as [|w IH]; intros n; [done |].
  cbn [padDigits]. rewrite length_app, IH. simpl. lia.
Qed.

(** Two ISO dates that are equal have the same month digits and the same
    day digits. *)
Lemma isoDate_inj y m d y' m' d' :
  isoDate y m d = isoDate y' m' d' ->
  padDigits 2 m = padDigits 2 m' /\ padDigits 2 d = padDigits 2 d'.
Proof.
  unfold isoDate. rewrite !(app_assoc (isoYear _)).
  intros Heq. apply app_inj_2 in Heq as [_ Heq].
  - apply app_inj_1 in Heq as [Hmonth Heq]; [| by rewrite !padDigits_length].
    by apply (app_inv_head (lit "-")) in Heq.
  - by rewrite !length_app, !padDigits_length.
Qed.

(** The day before the first of a month is not a day of that month. *)
Lemma day_before_month y m time :
  1 <= m <= 12 -> 0 <= time < msPerDay ->
  MonthFromTime (MakeDate (MakeDay y (m - 1) 0) time) <> m - 1.
Proof.
  intros Hm Htime. rewrite MakeDay_month by done.
  set (leap := if isLeapYear y then 1 else 0).
  destruct (decide (m = 1)) as [-> | Hne].
  - replace (DayFromYear y + (monthStart leap (1 - 1) + 0 - 1))
      with (DayFromYear (y - 1) + (DaysInYear (y - 1) - 1)).
    2:{ replace (DayFromYear y) with (DayFromYear (y - 1 + 1)) by (f_equal; lia).
        rewrite DayFromYear_succ. subst leap.
        destruct (isLeapYear y); eval_monthStart; lia. }
    assert (0 <= DaysInYear (y - 1) - 1 < DaysInYear (y - 1)) as Hk
      by (rewrite DaysInYear_leap; destruct (isLeapYear (y - 1)); lia).
    destruct (year_fields (y - 1) _ time Hk Htime) as (_ & Hday & Hleap).
    cbv zeta in *. unfold MonthFromTime. rewrite Hday, Hleap, DaysInYear_leap.
    destruct (isLeapYear (y - 1)); by vm_compute.
  - set (k := monthStart leap (m - 1) + 0 - 1).
    assert (0 <= k < DaysInYear y) as Hk.
    { subst k leap. rewrite DaysInYear_leap.
      months m Hm; try lia; destruct (isLeapYear y); eval_monthStart; lia. }
    destruct (year_fields y k time Hk Htime) as (_ & Hday & Hleap).
    fold leap in Hleap. cbv zeta in *.
    unfold MonthFromTime. rewrite Hday, Hleap. subst k leap.
    months m Hm; try lia; destruct (isLeapYear y); eval_monthStart; compare_all; try lia.
Qed.

End DigitFacts.

Section DecimalFacts.
Local Open Scope Z_scope.

Lemma decimalDigits_padDigits w fuel n :
  (w < fuel)%nat -> 10 ^ Z.of_nat w <= n < 10 ^ Z.of_nat (S w) ->
  decimalDigits fuel n = padDigits (S w) n.
Proof.
  revert fuel n. induction w as [|w IH]; intros fuel n Hfuel Hn.
  - destruct fuel as [|fuel]; [lia |]. change (10 ^ Z.of_nat 1) with 10 in Hn.
    change (10 ^ Z.of_nat 0) with 1 in Hn.
    cbn [decimalDigits padDigits app].
    rewrite (proj2 (Z.ltb_lt _ _)) by lia. by rewrite Z.mod_small by lia.
  - destruct fuel as [|fuel]; [lia |].
    rewrite !Nat2Z.inj_succ, !Z.pow_succ_r in Hn by lia.
    assert (1 <= 10 ^ Z.of_nat w) by (apply (Z.pow_le_mono_r 10 0); lia).
    cbn [decimalDigits]. rewrite (proj2 (Z.ltb_ge _ _)) by lia.
    rewrite (IH fuel (n / 10)).
    + done.
    + lia.
    + rewrite Nat2Z.inj_succ, Z.pow_succ_r by lia. Z.div_mod_to_equations. lia.
Qed.

(** [String(year)] has the four digits of the ISO format from the year
    1000 to the year 9999. *)
Lemma decimal_year y : 1000 <= y <= 9999 -> decimal y = isoYear y.
Proof.
  intros Hy. unfold decimal, isoYear.
  rewrite (proj2 (Z.ltb_ge _ _)) by lia.
  rewrite (proj2 (Z.leb_le 0 y)), (proj2 (Z.leb_le y 9999)) by lia. cbn [andb].
  apply (decimalDigits_padDigits 3); [| change (10 ^ Z.of_nat 3) with 1000; change (10 ^ Z.of_nat 4) with 10000; lia].
  pose proof (Z.log2_le_mono 1000 y) as Hlog. change (Z.log2 1000) with 9 in Hlog. lia.
Qed.

Lemma padStart_month m :
  1 <= m <= 12 -> padStart 2 (lit "0") (decimal m) = padDigits 2 m.
Proof. intros Hm. months m Hm; by vm_compute. Qed.

End DecimalFacts.

(** * The claims *)

Example DEFAULT_HOURS_is_8 : DEFAULT_HOURS = 8%Z.
Proof. reflexivity. Qed.

Example scenarioEnv_month :
  currentYear (scenarioEnv 0 None (ChatContent []) None) = 2024%Z /\
  currentMonth (scenarioEnv 0 None (ChatContent []) None) = 6%Z.
Proof. by_evaluation. Qed.

(** C1, where the code departs from it: in a time zone east of Greenwich
    (here UTC+05:30) the sheet of June 2024 has its 30 rows, but their
    dates run from 2024-05-31 to 2024-06-29: the row of each day carries
    the date of the day before, 31 May has a row and 30 June has none.  The
    first row, made for Saturday 1 June, is dated Friday 31 May and marked
    as weekend. *)
Theorem C1_east_of_Greenwich :
  let env := scenarioEnv 19800000 (Some scenarioA) (ChatContent (lit "Worked.")) None in
  exists data total w',
    buildTimesheet env (lit "sk-key") ∅ 2024 6 [] = (Ret (data, total), w') /\
    length data = 30 /\
    Date <$> data
    = lit "2024-05-31" :: (isoDate 2024 6 <$> seqZ 1 29) /\
    (isoDate 2024 6 30 ∉ (Date <$> data)) /\
    data !! 0 = Some {| Date := lit "2024-05-31"; WorkedHours := 0;
                        Logs := lit "No logs"; Weekend := lit "Yes" |}.
Proof.
  cbn zeta. eexists _, _, _. split; [vm_compute; reflexivity |].
  split; [reflexivity |]. split; [vm_compute; reflexivity |].
  split; [| reflexivity]. compute_done.
Qed.

(** C2, as amended: for a line whose first separator " - " stands behind
    [date], the extractor files the line under [date] and stores as its
    message the rest of the line behind that separator, later separators
    included, with white space trimmed off both ends. *)
Theorem C2_split_on_first_separator dailyLog date rest :
  indexOf separator (date ++ separator ++ rest) = Some (length date) ->
  date ∉ objectPrototypeKeys ->
  processLog dailyLog (date ++ separator ++ rest)
  = Ret (<[date := rawMessages dailyLog date ++ [trim rest]]> dailyLog).
Proof.
  intros Hindex Hdate.
  pose proof (lineDate_indexOf_Some _ _ Hindex) as HlineDate.
  pose proof (lineMessage_indexOf_Some _ _ Hindex) as HlineMessage.
  rewrite take_app_length in HlineDate.
  rewrite drop_app_add, drop_app_length in HlineMessage.
  rewrite processLog_plain.
  - by rewrite HlineDate, HlineMessage.
  - by destruct date.
  - by rewrite HlineDate.
Qed.

(** Scenario B: "2024-06-05 - refactor - cleanup pass" is filed under
    "2024-06-05" with the message "refactor - cleanup pass". *)
Lemma C2_scenario_B :
  processLog ∅ (lit "2024-06-05 - refactor - cleanup pass")
  = Ret {[ lit "2024-06-05" := [lit "refactor - cleanup pass"] ]}.
Proof.
  etrans.
  - apply (C2_split_on_first_separator ∅ (lit "2024-06-05")
             (lit "refactor - cleanup pass")).
    + reflexivity.
    + compute_done.
  - by_evaluation.
Defined.

(** C2, as stated, fails where the rest of the line begins or ends with a
    white space: of "2024-06-05 - fix typo " the message stored is
    "fix typo", not the rest of the line as it stands. *)
Lemma C2_counterexample :
  let log := lit "2024-06-05 - fix typo " in
  let rest := lit "fix typo " in
  log = lit "2024-06-05" ++ separator ++ rest /\
  processLog ∅ log = Ret {[ lit "2024-06-05" := [lit "fix typo"] ]} /\
  lit "fix typo" <> rest.
Proof. by_evaluation. Qed.

(** C3, where the code departs from it: in a time zone east of Greenwich
    (here UTC+05:30), with commits on Friday 7 and Sunday 9 June 2024, the
    row dated Friday 7 June has a raw message and yet 0 hours, and is
    marked as weekend: it is made in the round of Saturday 8 June.  The row
    dated Sunday 9 June has 8 hours and is not marked as weekend: it is
    made in the round of Monday 10 June, a day without messages of its
    own. *)
Theorem C3_east_of_Greenwich :
  let env := scenarioEnv 19800000 (Some scenarioEast) (ChatContent (lit "Worked.")) None in
  exists dailyLog data total w',
    forEachLog (split newline scenarioEast) ∅ = Ret dailyLog /\
    buildTimesheet env (lit "sk-key") dailyLog 2024 6 [] = (Ret (data, total), w') /\
    data !! 7 = Some {| Date := lit "2024-06-07"; WorkedHours := 0;
                        Logs := lit "Worked."; Weekend := lit "Yes" |} /\
    data !! 9 = Some {| Date := lit "2024-06-09"; WorkedHours := 8;
                        Logs := lit "Worked."; Weekend := lit "No" |} /\
    rawMessages dailyLog (isoDate 2024 6 7) = [lit "friday fix"] /\
    rawMessages dailyLog (isoDate 2024 6 8) = [] /\
    rawMessages dailyLog (isoDate 2024 6 9) = [lit "sunday fix"] /\
    rawMessages dailyLog (isoDate 2024 6 10) = [] /\
    WeekDay <$> (localMidnight 2024 6 <$> [7; 8; 9; 10]%Z) = [5; 6; 0; 1]%Z.
Proof.
  cbn zeta. eexists _, _, _, _.
  split; [vm_compute; reflexivity |]. split; [vm_compute; reflexivity |].
  by_evaluation.
Qed.



(** C5: the total the builder accumulates is the sum of the worked hours
    of all rows of the sheet. *)
Theorem C5_total_hours env openai dailyLog year month w :
  exists data total w',
    buildTimesheet env openai dailyLog year month w = (Ret (data, total), w') /\
    total = sumHours data.
Proof. eexists _, _, _. split; [apply buildTimesheet_run | done]. Qed.

(** C6, where the code departs from it: in a time zone east of Greenwich
    (here UTC+05:30), with commits on Sunday 9 and Saturday 29 June 2024,
    the groups hold nothing under 10 June and under 30 June.  Yet the row
    of the round of 10 June carries the summary of 9 June and 8 hours, the
    row of the round of 30 June, the last, carries the summary of 29 June,
    and no row is dated 30 June. *)
Theorem C6_east_of_Greenwich :
  let env := scenarioEnv 19800000 (Some scenarioEast) (ChatContent (lit "Worked.")) None in
  exists dailyLog data total w',
    forEachLog (split newline scenarioEast) ∅ = Ret dailyLog /\
    buildTimesheet env (lit "sk-key") dailyLog 2024 6 [] = (Ret (data, total), w') /\
    length data = 30 /\
    dailyLog !! isoDate 2024 6 10 = None /\
    data !! 9 = Some {| Date := lit "2024-06-09"; WorkedHours := 8;
                        Logs := lit "Worked."; Weekend := lit "No" |} /\
    dailyLog !! isoDate 2024 6 30 = None /\
    data !! 29 = Some {| Date := lit "2024-06-29"; WorkedHours := 0;
                         Logs := lit "Worked."; Weekend := lit "Yes" |} /\
    (isoDate 2024 6 30 ∉ (Date <$> data)).
Proof.
  cbn zeta. eexists _, _, _, _.
  split; [vm_compute; reflexivity |]. split; [vm_compute; reflexivity |].
  split; [reflexivity |]. split; [vm_compute; reflexivity |].
  split; [vm_compute; reflexivity |]. split; [vm_compute; reflexivity |].
  split; [vm_compute; reflexivity |]. compute_done.
Qed.




Example scenario_A_groups :
  forEachLog (split newline scenarioA) ∅
  = Ret {[ lit "2024-06-03" := [lit "fix bug"; lit "add test"];
           lit "2024-06-04" := [lit "refactor"] ]}.
Proof. by_evaluation. Qed.

(** C8: when the log source fails, the run reports it and ends with
    [process.exit(1)]: the log source was asked once, no chat completion
    and no spreadsheet update was requested, and the status is not 0. *)
Theorem C8_log_fetch_failure_is_fatal env apiKey author sheetId auth :
  apiKey <> [] -> sheetId <> [] ->
  credentialsFile env = Credentials auth ->
  execSync env (gitLogCommand env author) = None ->
  generateTimesheet env apiKey author sheetId []
  = (Exit 1,
     [ExecSync (gitLogCommand env author);
      ConsoleError (lit "Error fetching git logs. Are you in a git repository?")]) /\
  exitStatus (generateTimesheet env apiKey author sheetId []) = 1%Z.
Proof.
  intros HapiKey HsheetId Hcredentials HexecSync.
  assert (generateTimesheet env apiKey author sheetId []
          = (Exit 1,
             [ExecSync (gitLogCommand env author);
              ConsoleError (lit "Error fetching git logs. Are you in a git repository?")]))
    as Hrun.
  { unfold generateTimesheet.
    destruct apiKey as [|? ?]; [done |]. destruct sheetId as [|? ?]; [done |].
    rewrite Hcredentials.
    unfold emit, mbind at 1, M_bind at 1. by rewrite HexecSync. }
  split; [done |]. by rewrite Hrun.
Qed.

(** A run whose log source fails. *)
Lemma C8_witness :
  let env := scenarioEnv 0 None (ChatContent (lit "Worked.")) None in
  generateTimesheet env (lit "sk-key") (lit "dev") (lit "sheet-1") []
  = (Exit 1,
     [ExecSync (gitLogCommand env (lit "dev"));
      ConsoleError (lit "Error fetching git logs. Are you in a git repository?")]) /\
  exitStatus (generateTimesheet env (lit "sk-key") (lit "dev") (lit "sheet-1") []) = 1%Z.
Proof.
  apply (C8_log_fetch_failure_is_fatal
           (scenarioEnv 0 None (ChatContent (lit "Worked.")) None)
           (lit "sk-key") (lit "dev") (lit "sheet-1") (lit "{}")).
  - done.
  - done.
  - reflexivity.
  - reflexivity.
Defined.

(** C9: when the spreadsheet update fails, the run writes the failure to
    the console as its last act and still settles: the process ends with
    status 0. *)
Theorem C9_write_failure_is_not_fatal env apiKey author sheetId auth output message :
  apiKey <> [] -> sheetId <> [] ->
  credentialsFile env = Credentials auth ->
  execSync env (gitLogCommand env author) = Some output ->
  Forall plainLine (split newline output) ->
  (forall values, sheetsUpdate env auth sheetId values = Some message) ->
  exists w values,
    generateTimesheet env apiKey author sheetId []
    = (Ret (),
       w ++ [SheetsValuesUpdate sheetId values;
             ConsoleError (lit "Error updating Google Sheet: " ++ message)]) /\
    exitStatus (generateTimesheet env apiKey author sheetId []) = 0%Z.
Proof.
  intros HapiKey HsheetId Hcredentials HexecSync Hplain Hupdate.
  destruct (forEachLog_plain _ ∅ Hplain) as (dailyLog & HforEach & _).
  pose proof (generateTimesheet_run env apiKey author sheetId auth output dailyLog
                HapiKey HsheetId Hcredentials HexecSync HforEach) as Hrun.
  cbn zeta in Hrun. rewrite updateGoogleSheet_run, Hupdate in Hrun.
  eexists _, _. split; [exact Hrun |]. by rewrite Hrun.
Qed.

(** Scenario A with a spreadsheet that refuses the update. *)
Lemma C9_witness :
  let env := scenarioEnv 0 (Some scenarioA) (ChatContent (lit "Worked."))
               (Some (lit "The caller does not have permission")) in
  exists w values,
    generateTimesheet env (lit "sk-key") (lit "dev") (lit "sheet-1") []
    = (Ret (),
       w ++ [SheetsValuesUpdate (lit "sheet-1") values;
             ConsoleError (lit "Error updating Google Sheet: "
                           ++ lit "The caller does not have permission")]) /\
    exitStatus (generateTimesheet env (lit "sk-key") (lit "dev") (lit "sheet-1") []) = 0%Z.
Proof.
  apply (C9_write_failure_is_not_fatal
           (scenarioEnv 0 (Some scenarioA) (ChatContent (lit "Worked."))
              (Some (lit "The caller does not have permission")))
           (lit "sk-key") (lit "dev") (lit "sheet-1") (lit "{}") scenarioA).
  - done.
  - done.
  - reflexivity.
  - reflexivity.
  - compute_done.
  - reflexivity.
Defined.

(** The extractor is not total: a line whose date part names a member of
    [Object.prototype] makes [push] fail. *)
Example processLog_constructor :
  processLog ∅ (lit "constructor") = Throw TypeError /\
  processLog ∅ (lit "toString - x") = Throw TypeError.
Proof. by_evaluation. Qed.




(** ** What holds of the dates of the sheet *)

(** X1: whatever the offsets of the time zone, the sheet of a month has
    as many rows as the month has days, leap years counted. *)
Theorem sheet_has_a_row_per_day env openai dailyLog year month w :
  fullYear year -> (1 <= month <= 12)%Z ->
  zoneKeepsDays env year month ->
  exists data total w',
    buildTimesheet env openai dailyLog year month w = (Ret (data, total), w') /\
    Z.of_nat (length data) = numberOfDaysIn year month.
Proof.
  intros Hyear Hmonth Hzone. eexists _, _, _.
  split; [by apply buildTimesheet_month |]. cbn zeta.
  rewrite dayRecords_length, length_fmap, length_seqZ.
  pose proof (numberOfDaysIn_range year month Hmonth). lia.
Qed.

(** February 2024 has 29 rows. *)
Lemma sheet_has_a_row_per_day_february_2024 :
  exists data total w',
    buildTimesheet (scenarioEnv 19800000 None (ChatContent []) None) (lit "sk-key") ∅
      2024 2 [] = (Ret (data, total), w') /\
    Z.of_nat (length data) = numberOfDaysIn 2024 2.
Proof.
  apply sheet_has_a_row_per_day.
  - unfold fullYear. lia.
  - lia.
  - intros d Hd. unfold offsetOfDay, LocalTime, midnight, UTC.
    cbn [localTZA scenarioEnv]. unfold msPerDay. lia.
Defined.

(** X2: a row made for a day that begins on or west of Greenwich (the
    offset at its local midnight is zero or negative) carries the ISO date
    of that day; where every day of the month begins so, the rows carry
    the ISO dates of the days of the month, from the first to the last, in
    order. *)
Theorem sheet_dates_west_of_Greenwich env openai dailyLog year month w :
  fullYear year -> (1 <= month <= 12)%Z ->
  zoneKeepsDays env year month ->
  exists data total w',
    buildTimesheet env openai dailyLog year month w = (Ret (data, total), w') /\
    (forall j row, data !! j = Some row ->
       (- msPerDay < offsetOfDay env year month (Z.of_nat j + 1) <= 0)%Z ->
       Date row = isoDate year month (Z.of_nat j + 1)) /\
    ((forall d, (1 <= d <= numberOfDaysIn year month)%Z ->
        (- msPerDay < offsetOfDay env year month d <= 0)%Z) ->
     Date <$> data = isoDate year month <$> seqZ 1 (numberOfDaysIn year month)).
Proof.
  intros Hyear Hmonth Hzone. eexists _, _, _.
  split; [by apply buildTimesheet_month |]. cbn zeta. split.
  - intros j row Hrow Hwest.
    apply dayRecords_lookup in Hrow as (t & Ht & ->). cbn [dayRecordOf Date].
    apply list_lookup_fmap_Some in Ht as (d & -> & Hd).
    apply lookup_seqZ in Hd as [-> Hd].
    rewrite (Z.add_comm 1). apply dateStrOf_midnight_west; [done | done | lia].
  - intros Hwest. rewrite dayRecords_dates, <- list_fmap_compose.
    apply Forall_fmap_ext, Forall_seqZ. intros d Hd. cbn [compose].
    apply dateStrOf_midnight_west; [done | apply Hwest; lia | lia].
Qed.

(** October 2024 in London: the days from 28 October on begin on UTC, and
    their rows carry their dates. *)
Lemma sheet_dates_west_of_Greenwich_london_2024 :
  exists data total w',
    buildTimesheet (londonEnv None (ChatContent []) None) (lit "sk-key") ∅
      2024 10 [] = (Ret (data, total), w') /\
    (forall j row, data !! j = Some row ->
       (- msPerDay < offsetOfDay (londonEnv None (ChatContent []) None) 2024 10
                       (Z.of_nat j + 1) <= 0)%Z ->
       Date row = isoDate 2024 10 (Z.of_nat j + 1)) /\
    ((forall d, (1 <= d <= numberOfDaysIn 2024 10)%Z ->
        (- msPerDay < offsetOfDay (londonEnv None (ChatContent []) None) 2024 10 d
         <= 0)%Z) ->
     Date <$> data = isoDate 2024 10 <$> seqZ 1 (numberOfDaysIn 2024 10)).
Proof.
  apply sheet_dates_west_of_Greenwich.
  - unfold fullYear. lia.
  - lia.
  - intros d Hd. unfold offsetOfDay, LocalTime, midnight, UTC.
    cbn [localTZA londonEnv]. unfold londonTZA, msPerDay, msPerHour.
    repeat match goal with |- context [(?a <? ?b)%Z] => destruct (Z.ltb_spec a b) end;
      lia.
Defined.

(** X3: a row made for a day that begins east of Greenwich (the offset at
    its local midnight is positive) carries the ISO date of the day
    before: row [j], made for day [j + 1] of the month, is dated day [j].
    For the first row the day before is the last of the month before
    (C1). *)
Theorem sheet_dates_east_of_Greenwich env openai dailyLog year month w :
  fullYear year -> (1 <= month <= 12)%Z ->
  zoneKeepsDays env year month ->
  exists data total w',
    buildTimesheet env openai dailyLog year month w = (Ret (data, total), w') /\
    forall j row, data !! j = Some row -> 1 <= j ->
      (0 < offsetOfDay env year month (Z.of_nat j + 1) <= msPerDay)%Z ->
      Date row = isoDate year month (Z.of_nat j).
Proof.
  intros Hyear Hmonth Hzone. eexists _, _, _.
  split; [by apply buildTimesheet_month |]. cbn zeta.
  intros j row Hrow Hj Heast.
  apply dayRecords_lookup in Hrow as (t & Ht & ->). cbn [dayRecordOf Date].
  apply list_lookup_fmap_Some in Ht as (d & -> & Hd).
  apply lookup_seqZ in Hd as [-> Hd].
  rewrite (Z.add_comm 1).
  rewrite (dateStrOf_midnight_east env year month) by (done || lia).
  f_equal. lia.
Qed.

(** October 2024 in London: the days up to 27 October begin one hour east
    of Greenwich, and their rows carry the date of the day before. *)
Lemma sheet_dates_east_of_Greenwich_london_2024 :
  exists data total w',
    buildTimesheet (londonEnv None (ChatContent []) None) (lit "sk-key") ∅
      2024 10 [] = (Ret (data, total), w') /\
    forall j row, data !! j = Some row -> 1 <= j ->
      (0 < offsetOfDay (londonEnv None (ChatContent []) None) 2024 10 (Z.of_nat j + 1)
       <= msPerDay)%Z ->
      Date row = isoDate 2024 10 (Z.of_nat j).
Proof.
  apply sheet_dates_east_of_Greenwich.
  - unfold fullYear. lia.
  - lia.
  - intros d Hd. unfold offsetOfDay, LocalTime, midnight, UTC.
    cbn [localTZA londonEnv]. unfold londonTZA, msPerDay, msPerHour.
    repeat match goal with |- context [(?a <? ?b)%Z] => destruct (Z.ltb_spec a b) end;
      lia.
Defined.

(** X4: the Weekend column of row [j] tells whether day [j + 1] of the
    month is a Saturday or a Sunday in local time, whatever date the row
    carries. *)
Theorem weekend_column_is_local env openai dailyLog year month w :
  fullYear year -> (1 <= month <= 12)%Z ->
  zoneKeepsDays env year month ->
  exists data total w',
    buildTimesheet env openai dailyLog year month w = (Ret (data, total), w') /\
    forall j row, data !! j = Some row ->
      let weekDay := WeekDay (MakeDate (MakeDay year (month - 1) (Z.of_nat j + 1)) 0) in
      Weekend row
      = if bool_decide (weekDay = 0%Z) || bool_decide (weekDay = 6%Z)
        then lit "Yes" else lit "No".
Proof.
  intros Hyear Hmonth Hzone. pose proof (numberOfDaysIn_range year month Hmonth).
  eexists _, _, _.
  split; [by apply buildTimesheet_month |]. cbn zeta.
  intros j row Hrow.
  apply dayRecords_lookup in Hrow as (t & Ht & ->). cbn [dayRecordOf Weekend].
  apply list_lookup_fmap_Some in Ht as (d & -> & Hd).
  apply lookup_seqZ in Hd as [-> Hd].
  rewrite isWeekend_midnight by (done || lia). by rewrite (Z.add_comm 1).
Qed.

(** June 2024 at UTC+05:30. *)
Lemma weekend_column_is_local_june_2024 :
  exists data total w',
    buildTimesheet (scenarioEnv 19800000 None (ChatContent []) None) (lit "sk-key") ∅
      2024 6 [] = (Ret (data, total), w') /\
    forall j row, data !! j = Some row ->
      let weekDay := WeekDay (MakeDate (MakeDay 2024 (6 - 1) (Z.of_nat j + 1)) 0) in
      Weekend row
      = if bool_decide (weekDay = 0%Z) || bool_decide (weekDay = 6%Z)
        then lit "Yes" else lit "No".
Proof.
  apply weekend_column_is_local.
  - unfold fullYear. lia.
  - lia.
  - intros d Hd. unfold offsetOfDay, LocalTime, midnight, UTC.
    cbn [localTZA scenarioEnv]. unfold msPerDay. lia.
Defined.

(** X5, scenario A: in UTC the sheet of June 2024 has 30 rows; 3 June, a
    Monday, and 4 June have 8 hours each and the summary the formatter
    gave, trimmed; every other day, the weekend of 1 and 2 June among
    them, has 0 hours and "No logs"; the total is 16. *)
Theorem scenario_A_sheet :
  let env := scenarioEnv 0 (Some scenarioA) (ChatContent (lit " Worked. ")) None in
  exists dailyLog data total w',
    forEachLog (split newline scenarioA) ∅ = Ret dailyLog /\
    buildTimesheet env (lit "sk-key") dailyLog 2024 6 [] = (Ret (data, total), w') /\
    length data = 30 /\
    WorkedHours <$> data = [0; 0; 8; 8]%Z ++ replicate 26 0%Z /\
    Logs <$> data = replicate 2 (lit "No logs") ++ replicate 2 (lit "Worked.")
                    ++ replicate 26 (lit "No logs") /\
    Weekend <$> take 4 data = [lit "Yes"; lit "Yes"; lit "No"; lit "No"] /\
    total = 16%Z.
Proof.
  cbn zeta. eexists _, _, _, _.
  split; [vm_compute; reflexivity |]. split; [vm_compute; reflexivity |].
  by_evaluation.
Qed.

(** X6: grouping fails, with a TypeError, exactly on the log texts that
    hold a line which is not blank and whose date part is the name of a
    member of [Object.prototype]; on every other text it returns. *)
Theorem grouping_fails_exactly_on_inherited_names logs :
  (forEachLog logs ∅ = Throw TypeError <-> ~ Forall plainLine logs) /\
  ((exists dailyLog, forEachLog logs ∅ = Ret dailyLog) <-> Forall plainLine logs).
Proof.
  assert (~ Forall plainLine logs -> forEachLog logs ∅ = Throw TypeError) as Hthrow.
  { apply forEachLog_not_plain. intros key _. apply lookup_empty. }
  split; split.
  - intros Hrun Hplain.
    destruct (forEachLog_plain logs ∅ Hplain) as (dailyLog & Hret & _). congruence.
  - done.
  - intros [dailyLog Hret].
    destruct (decide (Forall plainLine logs)) as [| Hlogs]; [done |].
    apply Hthrow in Hlogs. congruence.
  - intros Hplain.
    destruct (forEachLog_plain logs ∅ Hplain) as (dailyLog & Hret & _). eauto.
Qed.

(** X7, scenario D: without a credentials file the run writes a diagnostic
    and exits with status 1 before it asks the log source, the chat API or
    the spreadsheet for anything. *)
Theorem missing_credentials_are_fatal env apiKey author sheetId :
  apiKey <> [] -> sheetId <> [] -> credentialsFile env = NoFile ->
  generateTimesheet env apiKey author sheetId []
  = (Exit 1,
     [ConsoleError (lit "Google credentials JSON file not found at: "
                    ++ CREDENTIALS_PATH env)]) /\
  exitStatus (generateTimesheet env apiKey author sheetId []) = 1%Z.
Proof.
  intros HapiKey HsheetId Hcredentials.
  assert (generateTimesheet env apiKey author sheetId []
          = (Exit 1,
             [ConsoleError (lit "Google credentials JSON file not found at: "
                            ++ CREDENTIALS_PATH env)])) as Hrun.
  { unfold generateTimesheet.
    destruct apiKey as [|? ?]; [done |]. destruct sheetId as [|? ?]; [done |].
    by rewrite Hcredentials. }
  split; [done |]. by rewrite Hrun.
Qed.

(** A run in a directory without [credentials.json]. *)
Lemma missing_credentials_are_fatal_witness :
  let env := {| localTZA := fun _ _ => 0%Z; clock := fun _ => 1717400000000%Z;
                CREDENTIALS_PATH := lit "/opt/timesheet-me/credentials.json";
                credentialsFile := NoFile;
                execSync := fun _ => Some scenarioA;
                chatCompletion := fun _ _ _ => ChatContent (lit "Worked.");
                sheetsUpdate := fun _ _ _ => None |} in
  generateTimesheet env (lit "sk-key") (lit "dev") (lit "sheet-1") []
  = (Exit 1,
     [ConsoleError (lit "Google credentials JSON file not found at: "
                    ++ CREDENTIALS_PATH env)]) /\
  exitStatus (generateTimesheet env (lit "sk-key") (lit "dev") (lit "sheet-1") []) = 1%Z.
Proof.
  apply missing_credentials_are_fatal.
  - done.
  - done.
  - reflexivity.
Defined.

(** ** Further properties of the script *)

(** X8: a run without a key or without a sheet id writes one diagnostic,
    the one for the key if both are missing, and exits with status 1; it
    asks nothing of the log source, the chat API or the spreadsheet. *)
Theorem missing_options_are_fatal env apiKey author sheetId :
  apiKey = [] \/ sheetId = [] ->
  generateTimesheet env apiKey author sheetId []
  = (Exit 1,
     [ConsoleError
        (if decide (apiKey = [])
         then lit "OpenAI API Key is required. Use the --apikey option."
         else lit "Google Sheet ID is required. Use the --sheetid option.")]) /\
  exitStatus (generateTimesheet env apiKey author sheetId []) = 1%Z.
Proof.
  intros Hmissing.
  assert (generateTimesheet env apiKey author sheetId []
          = (Exit 1,
             [ConsoleError
                (if decide (apiKey = [])
                 then lit "OpenAI API Key is required. Use the --apikey option."
                 else lit "Google Sheet ID is required. Use the --sheetid option.")]))
    as Hrun.
  { unfold generateTimesheet. destruct apiKey as [|c apiKey]; [done |].
    destruct Hmissing as [? | ->]; done. }
  split; [done |]. by rewrite Hrun.
Qed.

(** A run with a key and no sheet id. *)
Lemma missing_options_are_fatal_witness :
  let env := scenarioEnv 0 (Some scenarioA) (ChatContent (lit "Worked.")) None in
  generateTimesheet env (lit "sk-key") (lit "dev") [] []
  = (Exit 1,
     [ConsoleError
        (if decide (lit "sk-key" = [])
         then lit "OpenAI API Key is required. Use the --apikey option."
         else lit "Google Sheet ID is required. Use the --sheetid option.")]) /\
  exitStatus (generateTimesheet env (lit "sk-key") (lit "dev") [] []) = 1%Z.
Proof. apply missing_options_are_fatal. by right. Defined.

(** X9: a credentials file that is there but cannot be parsed ends the run
    with an exception nothing catches: no diagnostic is written, nothing is
    asked of the log source, the chat API or the spreadsheet, and the
    status is 1. *)
Theorem unreadable_credentials_are_not_caught env apiKey author sheetId :
  apiKey <> [] -> sheetId <> [] -> credentialsFile env = BadFile ->
  generateTimesheet env apiKey author sheetId [] = (Throw SyntaxError, []) /\
  exitStatus (generateTimesheet env apiKey author sheetId []) = 1%Z.
Proof.
  intros HapiKey HsheetId Hcredentials.
  assert (generateTimesheet env apiKey author sheetId [] = (Throw SyntaxError, []))
    as Hrun.
  { unfold generateTimesheet.
    destruct apiKey as [|? ?]; [done |]. destruct sheetId as [|? ?]; [done |].
    by rewrite Hcredentials. }
  split; [done |]. by rewrite Hrun.
Qed.

(** A run whose [credentials.json] is not JSON. *)
Lemma unreadable_credentials_are_not_caught_witness :
  let env := {| localTZA := fun _ _ => 0%Z; clock := fun _ => 1717400000000%Z;
                CREDENTIALS_PATH := lit "/opt/timesheet-me/credentials.json";
                credentialsFile := BadFile;
                execSync := fun _ => Some scenarioA;
                chatCompletion := fun _ _ _ => ChatContent (lit "Worked.");
                sheetsUpdate := fun _ _ _ => None |} in
  generateTimesheet env (lit "sk-key") (lit "dev") (lit "sheet-1") []
  = (Throw SyntaxError, []) /\
  exitStatus (generateTimesheet env (lit "sk-key") (lit "dev") (lit "sheet-1") []) = 1%Z.
Proof.
  apply unreadable_credentials_are_not_caught.
  - done.
  - done.
  - reflexivity.
Defined.

(** X10: a run that gets its credentials and a log of plain lines asks
    the log source first, then the chat API, each request followed by at
    most one diagnostic, then writes the spreadsheet once and reports on
    the update; it settles whatever the chat API and the spreadsheet
    answer. *)
Theorem completed_run_calls_in_order env apiKey author sheetId auth output :
  apiKey <> [] -> sheetId <> [] ->
  credentialsFile env = Credentials auth ->
  execSync env (gitLogCommand env author) = Some output ->
  Forall plainLine (split newline output) ->
  exists data blocks,
    generateTimesheet env apiKey author sheetId []
    = (Ret (),
       ExecSync (gitLogCommand env author) :: concat blocks
       ++ [SheetsValuesUpdate sheetId (sheetValues data);
           updateReport (sheetsUpdate env auth sheetId (sheetValues data))]) /\
    Forall isRequestBlock blocks.
Proof.
  intros HapiKey HsheetId Hcredentials HexecSync Hplain.
  destruct (forEachLog_plain _ ∅ Hplain) as (dailyLog & HforEach & _).
  pose proof (generateTimesheet_run env apiKey author sheetId auth output dailyLog
                HapiKey HsheetId Hcredentials HexecSync HforEach) as Hrun.
  cbn zeta in Hrun. rewrite updateGoogleSheet_run in Hrun.
  destruct (dayEvents_blocks env apiKey dailyLog 0
              (visited env (currentYear env) (currentMonth env) (seqZ 1 31)))
    as (blocks & Hblocks & Hkinds).
  rewrite Hblocks in Hrun.
  eexists _, blocks. split; [exact Hrun | done].
Qed.

(** Scenario A with a chat API and a spreadsheet that fail. *)
Lemma completed_run_calls_in_order_scenario_A :
  let env := scenarioEnv 0 (Some scenarioA) (ChatError (lit "quota exceeded"))
               (Some (lit "forbidden")) in
  exists data blocks,
    generateTimesheet env (lit "sk-key") (lit "dev") (lit "sheet-1") []
    = (Ret (),
       ExecSync (gitLogCommand env (lit "dev")) :: concat blocks
       ++ [SheetsValuesUpdate (lit "sheet-1") (sheetValues data);
           updateReport
             (sheetsUpdate env (lit "{}") (lit "sheet-1") (sheetValues data))]) /\
    Forall isRequestBlock blocks.
Proof.
  apply (completed_run_calls_in_order
           (scenarioEnv 0 (Some scenarioA) (ChatError (lit "quota exceeded"))
              (Some (lit "forbidden")))
           (lit "sk-key") (lit "dev") (lit "sheet-1") (lit "{}") scenarioA).
  - done.
  - done.
  - reflexivity.
  - reflexivity.
  - compute_done.
Defined.

(** X11: the loop asks for one chat completion per row that has raw
    messages, in the order of the rows, each with the prompt made of the
    messages of its date; what else it writes are diagnostics. *)
Theorem one_chat_request_per_day_with_messages env openai dailyLog year month w :
  exists data total events,
    buildTimesheet env openai dailyLog year month w = (Ret (data, total), w ++ events) /\
    Forall (fun e => isChatCall e || isDiagnostic e = true) events /\
    chatPrompts events
    = chatPrompt ∘ rawMessages dailyLog ∘ Date
      <$> filter (fun row => rawMessages dailyLog (Date row) <> []) data.
Proof.
  eexists _, _, _. split; [apply buildTimesheet_run |]. cbn zeta.
  split; [apply dayEvents_kinds | apply chatPrompts_dayEvents].
Qed.

(** X12: where the chat API answers the request of a row, the row carries
    the answer with the white space at its ends removed; the request of
    row [j] is counted from the requests made before the loop and those of
    the rows before it. *)
Theorem formatter_answer_is_trimmed env openai dailyLog year month w :
  exists data total w',
    buildTimesheet env openai dailyLog year month w = (Ret (data, total), w') /\
    forall j row content, data !! j = Some row ->
      let raw := rawMessages dailyLog (Date row) in
      raw <> [] ->
      chatCompletion env (chatCalls w + busyDays dailyLog (take j data)) openai
        (chatPrompt raw) = ChatContent content ->
      Logs row = trim content.
Proof.
  eexists _, _, _. split; [apply buildTimesheet_run |]. cbn zeta.
  intros j row content Hrow Hraw Hchat.
  apply dayRecords_lookup in Hrow as (t & _ & ->).
  cbn [dayRecordOf Date Logs] in *.
  rewrite bool_decide_eq_false_2 by done.
  unfold formatted. by rewrite Hchat.
Qed.

(** X13: when the log source answers nothing but blank lines, the chat
    API is never asked, and the sheet is still written, every row with
    "No logs" and no hours. *)
Theorem no_commits_give_a_sheet_without_hours env apiKey author sheetId auth output :
  apiKey <> [] -> sheetId <> [] ->
  credentialsFile env = Credentials auth ->
  execSync env (gitLogCommand env author) = Some output ->
  Forall (fun log => log = []) (split newline output) ->
  exists data,
    generateTimesheet env apiKey author sheetId []
    = (Ret (),
       [ExecSync (gitLogCommand env author);
        SheetsValuesUpdate sheetId (sheetValues data);
        updateReport (sheetsUpdate env auth sheetId (sheetValues data))]) /\
    Forall (fun row => Logs row = lit "No logs" /\ WorkedHours row = 0%Z) data.
Proof.
  intros HapiKey HsheetId Hcredentials HexecSync Hblank.
  pose proof (generateTimesheet_run env apiKey author sheetId auth output ∅
                HapiKey HsheetId Hcredentials HexecSync
                (forEachLog_blank _ _ Hblank)) as Hrun.
  cbn zeta in Hrun. rewrite updateGoogleSheet_run, dayEvents_no_logs in Hrun.
  eexists. split; [exact Hrun | apply dayRecords_no_logs].
Qed.

Lemma no_commits_give_a_sheet_without_hours_witness :
  let env := scenarioEnv 0 (Some []) (ChatContent (lit "Worked.")) None in
  exists data,
    generateTimesheet env (lit "sk-key") (lit "dev") (lit "sheet-1") []
    = (Ret (),
       [ExecSync (gitLogCommand env (lit "dev"));
        SheetsValuesUpdate (lit "sheet-1") (sheetValues data);
        updateReport (sheetsUpdate env (lit "{}") (lit "sheet-1") (sheetValues data))]) /\
    Forall (fun row => Logs row = lit "No logs" /\ WorkedHours row = 0%Z) data.
Proof.
  apply (no_commits_give_a_sheet_without_hours
           (scenarioEnv 0 (Some []) (ChatContent (lit "Worked.")) None)
           (lit "sk-key") (lit "dev") (lit "sheet-1") (lit "{}") []).
  - done.
  - done.
  - reflexivity.
  - reflexivity.
  - compute_done.
Defined.

(** X14: every row has 0 or [DEFAULT_HOURS] hours, the total is
    [DEFAULT_HOURS] times the number of rows with hours, there are at
    most 31 rows and the total is at most 248. *)
Theorem hours_are_whole_days env openai dailyLog year month w :
  exists data total w',
    buildTimesheet env openai dailyLog year month w = (Ret (data, total), w') /\
    Forall (fun row => WorkedHours row = 0%Z \/ WorkedHours row = DEFAULT_HOURS) data /\
    total
    = (DEFAULT_HOURS * Z.of_nat (length (filter (fun row => WorkedHours row <> 0%Z) data)))%Z /\
    length data <= 31 /\
    (0 <= total <= 248)%Z.
Proof.
  eexists _, _, _. split; [apply buildTimesheet_run |]. cbn zeta.
  set (data := dayRecords _ _ _ _ _).
  assert (length data <= 31) as Hlength.
  { subst data. rewrite dayRecords_length.
    etrans; [apply visited_length |]. by rewrite length_seqZ. }
  pose proof (dayRecords_hours env openai dailyLog (chatCalls w)
                (visited env year month (seqZ 1 31))) as Hhours.
  fold data in Hhours.
  pose proof (sumHours_whole_days data Hhours) as Hsum.
  split; [done |]. split; [done |]. split; [done |].
  rewrite Hsum.
  pose proof (length_filter (fun row => WorkedHours row <> 0%Z) data) as Hfilter.
  unfold DEFAULT_HOURS. lia.
Qed.

(** X15: grouping files every line that is not blank once: the groups
    hold as many messages as the log has such lines. *)
Theorem every_line_is_filed_once logs :
  Forall plainLine logs ->
  exists dailyLog,
    forEachLog logs ∅ = Ret dailyLog /\
    messageCount dailyLog = length (filter (fun log => log <> []) logs).
Proof.
  intros Hplain.
  destruct (forEachLog_plain logs ∅ Hplain) as (dailyLog & Hrun & _).
  exists dailyLog. split; [done |].
  by rewrite (forEachLog_count logs ∅ dailyLog Hplain Hrun).
Qed.

Lemma every_line_is_filed_once_scenario_A :
  exists dailyLog,
    forEachLog (split newline scenarioA) ∅ = Ret dailyLog /\
    messageCount dailyLog
    = length (filter (fun log => log <> []) (split newline scenarioA)).
Proof. apply every_line_is_filed_once. compute_done. Defined.

(** X16: after grouping no group is empty, no key holds the separator,
    and no message has white space left at either end. *)
Theorem groups_are_well_formed logs :
  Forall plainLine logs ->
  exists dailyLog,
    forEachLog logs ∅ = Ret dailyLog /\
    forall date group, dailyLog !! date = Some group ->
      group <> [] /\
      indexOf separator date = None /\
      Forall (fun message => trim message = message) group.
Proof.
  intros Hplain.
  destruct (forEachLog_plain logs ∅ Hplain) as (dailyLog & Hrun & Hgroups).
  exists dailyLog. split; [done |]. intros date group Hgroup.
  rewrite Hgroups, lookup_empty in Hgroup.
  destruct (decide (groupedMessages date logs = [])) as [| Hne]; [done |].
  injection Hgroup as <-. unfold rawMessages. rewrite lookup_empty. cbn [default app].
  split; [done |]. split.
  - unfold groupedMessages in Hne.
    destruct (filter _ logs) as [|log rest] eqn:Hfilter; [done |].
    assert (log ∈ filter (fun log => log <> [] /\ lineDate log = date) logs) as Hin
      by (rewrite Hfilter; left).
    apply list_elem_of_filter in Hin as [[_ <-] _]. apply lineDate_no_separator.
  - unfold groupedMessages. apply Forall_fmap, Forall_true. intros log.
    apply lineMessage_trimmed.
Qed.

Lemma groups_are_well_formed_scenario_A :
  exists dailyLog,
    forEachLog (split newline scenarioA) ∅ = Ret dailyLog /\
    forall date group, dailyLog !! date = Some group ->
      group <> [] /\
      indexOf separator date = None /\
      Forall (fun message => trim message = message) group.
Proof. apply groups_are_well_formed. compute_done. Defined.

(** X17: where every day of the month begins on or west of Greenwich,
    the loop reads the groups of the days of the month and no other: two
    [dailyLog] with the same messages on those days give the same sheet,
    the same total and the same requests. *)
Theorem commits_dated_outside_the_month_are_ignored
    env openai dailyLog dailyLog' year month w :
  fullYear year -> (1 <= month <= 12)%Z ->
  zoneKeepsDays env year month ->
  (forall d, (1 <= d <= numberOfDaysIn year month)%Z ->
     (- msPerDay < offsetOfDay env year month d <= 0)%Z) ->
  Forall (fun d => rawMessages dailyLog (isoDate year month d)
                   = rawMessages dailyLog' (isoDate year month d))
    (seqZ 1 (numberOfDaysIn year month)) ->
  buildTimesheet env openai dailyLog year month w
  = buildTimesheet env openai dailyLog' year month w.
Proof.
  intros Hyear Hmonth Hzone Hwest Hsame.
  rewrite !buildTimesheet_month by done. cbn zeta.
  destruct (dayRecords_ext env openai dailyLog dailyLog' (chatCalls w)
              (midnight env year month <$> seqZ 1 (numberOfDaysIn year month)))
    as [-> ->]; [| done].
  apply Forall_fmap, Forall_forall. intros d Hd.
  rewrite Forall_forall in Hsame. specialize (Hsame d Hd).
  apply elem_of_seqZ in Hd. cbn [compose].
  rewrite dateStrOf_midnight_west;
    [done | first [done | apply Hwest; lia | lia] ..].
Qed.

(** A commit dated 31 May does not show in the sheet of June. *)
Lemma commits_dated_outside_the_month_are_ignored_june_2024 :
  let env := scenarioEnv 0 (Some []) (ChatContent (lit "Worked.")) None in
  buildTimesheet env (lit "sk-key") ∅ 2024 6 []
  = buildTimesheet env (lit "sk-key") {[ lit "2024-05-31" := [lit "late fix"] ]} 2024 6 [].
Proof.
  apply commits_dated_outside_the_month_are_ignored.
  - unfold fullYear. lia.
  - lia.
  - intros d Hd. unfold offsetOfDay, LocalTime, midnight, UTC.
    cbn [localTZA scenarioEnv]. unfold msPerDay. lia.
  - intros d Hd. unfold offsetOfDay. cbn [localTZA scenarioEnv]. unfold msPerDay. lia.
  - compute_done.
Defined.

(** X18: where every day of the month begins east of Greenwich, the group
    of the last day of the month is never read: whatever it holds, the
    sheet, the total and the requests are the same. *)
Theorem east_of_Greenwich_the_last_day_is_not_read
    env openai dailyLog group year month w :
  fullYear year -> (1 <= month <= 12)%Z ->
  zoneKeepsDays env year month ->
  (forall d, (1 <= d <= numberOfDaysIn year month)%Z ->
     (0 < offsetOfDay env year month d <= msPerDay)%Z) ->
  buildTimesheet env openai
    (<[isoDate year month (numberOfDaysIn year month) := group]> dailyLog) year month w
  = buildTimesheet env openai dailyLog year month w.
Proof.
  intros Hyear Hmonth Hzone Heast.
  pose proof (numberOfDaysIn_range year month Hmonth) as Hrange.
  rewrite !buildTimesheet_month by done. cbn zeta.
  destruct (dayRecords_ext env openai
              (<[isoDate year month (numberOfDaysIn year month) := group]> dailyLog)
              dailyLog (chatCalls w)
              (midnight env year month <$> seqZ 1 (numberOfDaysIn year month)))
    as [-> ->]; [| done].
  apply Forall_fmap, Forall_forall. intros d Hd. apply elem_of_seqZ in Hd.
  cbn [compose]. unfold rawMessages. rewrite lookup_insert_ne; [done |].
  assert (0 < offsetOfDay env year month d <= msPerDay)%Z as Hoffset
    by (apply Heast; lia).
  destruct (decide (d = 1%Z)) as [-> | Hne].
  - rewrite midnight_offset.
    replace (MakeDate (MakeDay year (month - 1) 1) (- offsetOfDay env year month 1))
      with (MakeDate (MakeDay year (month - 1) 0)
              (msPerDay - offsetOfDay env year month 1)%Z)
      by (unfold MakeDate, MakeDay; lia).
    set (t := MakeDate _ _).
    rewrite (dateStrOf_fields t _ _ _ eq_refl eq_refl eq_refl).
    intros Heq. apply isoDate_inj in Heq as [Heq _].
    pose proof (MonthFromTime_range t) as Hm.
    apply padDigits_2_inj in Heq; [| lia | lia].
    apply (day_before_month year month (msPerDay - offsetOfDay env year month 1)%Z);
      [done | lia |].
    fold t. lia.
  - rewrite dateStrOf_midnight_east by (done || lia).
    intros Heq. apply isoDate_inj in Heq as [_ Heq].
    apply padDigits_2_inj in Heq; lia.
Qed.

(** June 2024 at UTC+05:30: a commit dated 30 June leaves no trace. *)
Lemma east_of_Greenwich_the_last_day_is_not_read_june_2024 :
  let env := scenarioEnv 19800000 (Some []) (ChatContent (lit "Worked.")) None in
  buildTimesheet env (lit "sk-key") (<[lit "2024-06-30" := [lit "last push"]]> ∅) 2024 6 []
  = buildTimesheet env (lit "sk-key") ∅ 2024 6 [].
Proof.
  apply (east_of_Greenwich_the_last_day_is_not_read
           (scenarioEnv 19800000 (Some []) (ChatContent (lit "Worked.")) None)
           (lit "sk-key") ∅ [lit "last push"] 2024 6 []).
  - unfold fullYear. lia.
  - lia.
  - intros d Hd. unfold offsetOfDay, LocalTime, midnight, UTC.
    cbn [localTZA scenarioEnv]. unfold msPerDay. lia.
  - intros d Hd. unfold offsetOfDay. cbn [localTZA scenarioEnv]. unfold msPerDay. lia.
Defined.

(** X19: the values a completed run writes are the header row and one
    row of four cells for each day of the month the second reading of the
    clock shows, in the year the first reading shows. *)
Theorem the_sheet_is_of_the_month_of_the_clock env apiKey author sheetId auth output :
  apiKey <> [] -> sheetId <> [] ->
  credentialsFile env = Credentials auth ->
  execSync env (gitLogCommand env author) = Some output ->
  Forall plainLine (split newline output) ->
  fullYear (currentYear env) ->
  zoneKeepsDays env (currentYear env) (currentMonth env) ->
  exists values events,
    generateTimesheet env apiKey author sheetId []
    = (Ret (),
       ExecSync (gitLogCommand env author) :: events
       ++ [SheetsValuesUpdate sheetId values;
           updateReport (sheetsUpdate env auth sheetId values)]) /\
    values !! 0
    = Some (CellString <$> [lit "Date"; lit "Worked Hours"; lit "Logs"; lit "Weekend"]) /\
    length values
    = S (Z.to_nat (numberOfDaysIn (currentYear env) (currentMonth env))) /\
    Forall (fun cells => length cells = 4) values.
Proof.
  intros HapiKey HsheetId Hcredentials HexecSync Hplain Hyear Hzone.
  destruct (forEachLog_plain _ ∅ Hplain) as (dailyLog & HforEach & _).
  pose proof (generateTimesheet_run env apiKey author sheetId auth output dailyLog
                HapiKey HsheetId Hcredentials HexecSync HforEach) as Hrun.
  cbn zeta in Hrun. rewrite updateGoogleSheet_run in Hrun.
  rewrite visited_month in Hrun by (done || apply currentMonth_range).
  eexists _, _. split; [exact Hrun |]. split; [done |].
  destruct (sheetValues_shape
              (dayRecords env apiKey dailyLog 0
                 (midnight env (currentYear env) (currentMonth env)
                  <$> seqZ 1 (numberOfDaysIn (currentYear env) (currentMonth env)))))
    as [Hlength Hcells].
  split; [| done].
  by rewrite Hlength, dayRecords_length, length_fmap, length_seqZ.
Qed.

(** Scenario A, run on 3 June 2024: a header and 30 rows. *)
Lemma the_sheet_is_of_the_month_of_the_clock_scenario_A :
  let env := scenarioEnv 0 (Some scenarioA) (ChatContent (lit "Worked.")) None in
  exists values events,
    generateTimesheet env (lit "sk-key") (lit "dev") (lit "sheet-1") []
    = (Ret (),
       ExecSync (gitLogCommand env (lit "dev")) :: events
       ++ [SheetsValuesUpdate (lit "sheet-1") values;
           updateReport (sheetsUpdate env (lit "{}") (lit "sheet-1") values)]) /\
    values !! 0
    = Some (CellString <$> [lit "Date"; lit "Worked Hours"; lit "Logs"; lit "Weekend"]) /\
    length values
    = S (Z.to_nat (numberOfDaysIn (currentYear env) (currentMonth env))) /\
    Forall (fun cells => length cells = 4) values.
Proof.
  apply (the_sheet_is_of_the_month_of_the_clock
           (scenarioEnv 0 (Some scenarioA) (ChatContent (lit "Worked.")) None)
           (lit "sk-key") (lit "dev") (lit "sheet-1") (lit "{}") scenarioA).
  - done.
  - done.
  - reflexivity.
  - reflexivity.
  - compute_done.
  - vm_compute. split; discriminate.
  - intros d Hd. unfold offsetOfDay, LocalTime, midnight, UTC.
    cbn [localTZA scenarioEnv]. unfold msPerDay. lia.
Defined.

(** X20: from the year 1000 to the year 9999, [firstDay], the bound the
    log source is given, is the ISO date of the first of the month. *)
Theorem the_log_is_asked_from_the_first_of_the_month env :
  (1000 <= currentYear env <= 9999)%Z ->
  firstDay env = isoDate (currentYear env) (currentMonth env) 1.
Proof.
  intros Hyear. unfold firstDay, isoDate.
  by rewrite decimal_year, padStart_month by (done || apply currentMonth_range).
Qed.

Lemma the_log_is_asked_from_the_first_of_the_month_june_2024 :
  firstDay (scenarioEnv 0 (Some scenarioA) (ChatContent (lit "Worked.")) None)
  = lit "2024-06-01".
Proof.
  etrans; [apply the_log_is_asked_from_the_first_of_the_month | by_evaluation].
  vm_compute. split; discriminate.
Defined.

(** X21: in every time zone, a row has the daily hours (8) as its worked
    hours if the groups hold messages under the date string the row
    carries and the local day of its round is neither a Saturday nor a
    Sunday, and 0 otherwise; its Weekend cell tells of the local day of its
    round.  So a row marked as weekend has 0 hours, and a row with hours
    is not marked as weekend and has messages under its date string. *)
Theorem hours_follow_the_round env openai dailyLog year month w :
  exists data total w',
    buildTimesheet env openai dailyLog year month w = (Ret (data, total), w') /\
    forall j row, data !! j = Some row ->
      let isHoliday :=
        isWeekend env (newDate (localTZA env) year (month - 1) (Z.of_nat j + 1)) in
      let raw := rawMessages dailyLog (Date row) in
      WorkedHours row
        = (if bool_decide (raw <> []) && negb isHoliday then DEFAULT_HOURS else 0%Z) /\
      Weekend row = (if isHoliday then lit "Yes" else lit "No") /\
      (isHoliday = true -> WorkedHours row = 0%Z) /\
      ((0 < WorkedHours row)%Z -> isHoliday = false /\ raw <> []).
Proof.
  eexists _, _, _. split; [apply buildTimesheet_run |].
  intros j row Hrow isHoliday raw.
  apply dayRecords_lookup in Hrow as (t & Ht & ->).
  apply visited_days_lookup in Ht.
  subst isHoliday raw. rewrite Ht. cbn [dayRecordOf WorkedHours Weekend Date].
  split; [done |]. split; [done |]. split.
  - intros ->. by rewrite andb_false_r.
  - case_bool_decide as Hraw; destruct (isWeekend env (Some t)); simpl; try lia.
    done.
Qed.

(** X22: in every time zone, row [j] carries the date string of the Date
    made for day [j + 1], and a row under whose date string the groups
    hold no message has the summary "No logs" and 0 worked hours. *)
Theorem rows_without_messages_say_no_logs env openai dailyLog year month w :
  exists data total w',
    buildTimesheet env openai dailyLog year month w = (Ret (data, total), w') /\
    forall j row, data !! j = Some row ->
      hd [] ∘ split (lit "T")
        <$> toISOString (newDate (localTZA env) year (month - 1) (Z.of_nat j + 1))
      = Some (Date row) /\
      (rawMessages dailyLog (Date row) = [] ->
       Logs row = lit "No logs" /\ WorkedHours row = 0%Z).
Proof.
  eexists _, _, _. split; [apply buildTimesheet_run |].
  intros j row Hrow.
  apply dayRecords_lookup in Hrow as (t & Ht & ->).
  apply visited_days_lookup in Ht. rewrite Ht.
  cbn [dayRecordOf WorkedHours Logs Date]. split; [done |].
  by intros ->.
Qed.

(** October 2024 in London, where summer time ends on the 27th: the
    sheet has its 31 rows; the rows of 1 to 27 October are dated 30
    September to 26 October, those of 28 to 31 October carry their own
    dates, and no row is dated 27 October. *)
Example london_october_2024 :
  let env := londonEnv None (ChatContent []) None in
  exists data total w',
    buildTimesheet env (lit "sk-key") ∅ 2024 10 [] = (Ret (data, total), w') /\
    length data = 31 /\
    Date <$> data
    = lit "2024-09-30" :: (isoDate 2024 10 <$> seqZ 1 26)
      ++ (isoDate 2024 10 <$> seqZ 28 4) /\
    (isoDate 2024 10 27 ∉ (Date <$> data)).
Proof.
  cbn zeta. eexists _, _, _. split; [vm_compute; reflexivity |].
  split; [reflexivity |]. split; [vm_compute; reflexivity |]. compute_done.
Qed.
